(** * Frontend BPS: the data-fetch pipeline of [dist/js/api.js]

    A shallow embedding of [fetchData], [getChartData] and [getMockChartData]
    (dist/js/api.js) together with [API_CONFIG] (dist/js/config.js).

    The JavaScript is asynchronous and effectful.  Each [async] function is a
    state-passing function over a [World], the chronological log of what the
    call did to its environment (network requests, timers).  The network is an
    oracle that answers the n-th request.  A function's result is a
    [Completion]: it returns normally, it throws, or its promise never
    settles.

    Also embedded: the indicator getters and [submitFeedback] (api.js),
    [getSelectedFilters] and [debounce] (dist/js/utils.js), [showTooltip] and
    [hideTooltip] (dist/js/charts.js). *)

From Stdlib Require Import String Ascii List ZArith Lia Bool Floats DecimalString.
From Equations Require Import Equations.
Import ListNotations.

Set Warnings "-inexact-float,-register-all".
Open Scope string_scope.

(** ** JavaScript values *)

(** What [JSON.parse] yields, and what the object literals of the mock table
    are made of.  A number is an IEEE 754 binary64, as in JavaScript.  [JObj]
    lists the own properties of the object in enumeration order, each key
    once. *)
Inductive JSON : Type :=
| JNull
| JBool (b : bool)
| JNum (x : float)
| JStr (s : string)
| JArr (items : list JSON)
| JObj (fields : list (string * JSON)).

(** The members every object literal inherits from [Object.prototype]. *)
Inductive Builtin : Type :=
| NativeFunction (fname : string)
| ObjectPrototype.

Definition Object_prototype : list (string * Builtin) :=
  [ ("constructor", NativeFunction "Object");
    ("hasOwnProperty", NativeFunction "hasOwnProperty");
    ("isPrototypeOf", NativeFunction "isPrototypeOf");
    ("propertyIsEnumerable", NativeFunction "propertyIsEnumerable");
    ("toLocaleString", NativeFunction "toLocaleString");
    ("toString", NativeFunction "toString");
    ("valueOf", NativeFunction "valueOf");
    ("__defineGetter__", NativeFunction "__defineGetter__");
    ("__defineSetter__", NativeFunction "__defineSetter__");
    ("__lookupGetter__", NativeFunction "__lookupGetter__");
    ("__lookupSetter__", NativeFunction "__lookupSetter__");
    ("__proto__", ObjectPrototype) ].

(** The result of [obj[key]] on an object literal: an own property, a member
    found on the prototype, or [undefined]. *)
Inductive Property (A : Type) : Type :=
| Own (v : A)
| Inherited (b : Builtin)
| Undefined.
Arguments Own {A} v.
Arguments Inherited {A} b.
Arguments Undefined {A}.

Fixpoint assoc {A : Type} (key : string) (l : list (string * A)) : option A :=
  match l with
  | [] => None
  | (k, v) :: rest => if (k =? key)%string then Some v else assoc key rest
  end.

Definition get {A : Type} (obj : list (string * A)) (key : string) : Property A :=
  match assoc key obj with
  | Some v => Own v
  | None =>
      match assoc key Object_prototype with
      | Some b => Inherited b
      | None => Undefined
      end
  end.

(** What the JavaScript engine decides and neither the language nor the
    repository does: the message of the [TypeError] raised by reading a
    property of [null], the message of the [TypeError] raised when an object
    has no primitive value, and the source text shown for a native function. *)
Record Engine : Type := {
  null_property_message : string -> string;
  to_primitive_message : string;
  native_function_text : string -> string
}.

(** The texts of V8 (Chrome, Node.js). *)
Definition v8 : Engine := {|
  null_property_message :=
    fun key => "Cannot read properties of null (reading '" ++ key ++ "')";
  to_primitive_message := "Cannot convert object to primitive value";
  native_function_text :=
    fun fname => "function " ++ fname ++ "() { [native code] }"
|}.

(** A mathematical integer in decimal. *)
Definition Z_toString (z : Z) : string := NilZero.string_of_int (Z.to_int z).

(** *** [Number::toString], radix 10 (ECMA-262, 6.1.6.1.20)

    The shortest decimal digits that read back as the same binary64, laid out
    by the magnitude of the decimal exponent.  All arithmetic is exact, on
    [Z]. *)

(** The sign of [s * 10^p - v * 2^e]. *)
Definition compare_scaled (s p v e : Z) : comparison :=
  (s * 10 ^ Z.max p 0 * 2 ^ Z.max (- e) 0 ?= v * 2 ^ Z.max e 0 * 10 ^ Z.max (- p) 0)%Z.

(** Does [s * 10^p] round to the binary64 [m * 2^e]?  Its rounding interval
    is from [lo * 2^(e-2)] to [hi * 2^(e-2)], closed when [m] is even. *)
Definition rounds_to (m e s p : Z) : bool :=
  let boundary := ((m =? 2 ^ 52) && (-1074 <? e))%Z in
  let lo := (4 * m - (if boundary then 1 else 2))%Z in
  let hi := (4 * m + 2)%Z in
  match compare_scaled s p lo (e - 2), compare_scaled s p hi (e - 2) with
  | Gt, Lt => true
  | Eq, Lt | Gt, Eq => Z.even m
  | _, _ => false
  end.

(** The [n] with [10^(n-1) <= m * 2^e < 10^n], from an estimate. *)
Fixpoint adjust_exponent (fuel : nat) (m e n : Z) : Z :=
  match fuel with
  | O => n
  | S fuel' =>
      match compare_scaled 1 n m e with
      | Gt =>
          match compare_scaled 1 (n - 1) m e with
          | Gt => adjust_exponent fuel' m e (n - 1)
          | _ => n
          end
      | _ => adjust_exponent fuel' m e (n + 1)
      end
  end.

Definition decimal_exponent (m e : Z) : Z :=
  adjust_exponent 8 m e (((Z.log2 m + e) * 30103) / 100000)%Z.

(** [floor (m * 2^e / 10^p)] *)
Definition scaled_floor (m e p : Z) : Z :=
  ((m * 2 ^ Z.max e 0 * 10 ^ Z.max (- p) 0) / (2 ^ Z.max (- e) 0 * 10 ^ Z.max p 0))%Z.

(** Of the candidates [s1] and [s1 + 1] around [m * 2^e / 10^p], is [s1] the
    closer one (the even one on a tie)? *)
Definition prefer_lower (m e s1 p : Z) : bool :=
  match compare_scaled (2 * s1 + 1) p (2 * m) e with
  | Gt => true
  | Lt => false
  | Eq => Z.even s1
  end.

(** The digits [s] and exponent [p] with [s * 10^p] rounding to the binary64,
    [s] of [k] digits, for the least [k] (17 digits always suffice). *)
Fixpoint shortest (fuel : nat) (k : Z) (m e n : Z) : Z * Z :=
  let p := (n - k)%Z in
  let s1 := scaled_floor m e p in
  let s2 := (s1 + 1)%Z in
  let ok1 := rounds_to m e s1 p && (10 ^ (k - 1) <=? s1)%Z in
  let ok2 := rounds_to m e s2 p in
  let pick :=
    if ok1 && ok2 then Some (if prefer_lower m e s1 p then s1 else s2)
    else if ok1 then Some s1
    else if ok2 then Some s2
    else None in
  match pick with
  | Some s => (s, p)
  | None =>
      match fuel with
      | O => (s1, p)
      | S fuel' => shortest fuel' (k + 1) m e n
      end
  end.

(** Trailing zeros of [s] moved into the exponent. *)
Fixpoint strip_zeros (fuel : nat) (s p : Z) : Z * Z :=
  match fuel with
  | O => (s, p)
  | S fuel' =>
      if ((s mod 10 =? 0) && (0 <? s))%Z then strip_zeros fuel' (s / 10) (p + 1)
      else (s, p)
  end.

Fixpoint zeros (n : nat) : string :=
  match n with O => "" | S n' => String "0" (zeros n') end.

(** The layout of the [k] digits of [s] for the value [s * 10^p], with
    [n = p + k]: plain digits up to 21 places, a leading [0.] down to 1e-6,
    exponent notation beyond. *)
Definition format_decimal (s p : Z) : string :=
  let digits := Z_toString s in
  let k := Z.of_nat (String.length digits) in
  let n := (p + k)%Z in
  if ((k <=? n) && (n <=? 21))%Z then digits ++ zeros (Z.to_nat (n - k))
  else if ((0 <? n) && (n <=? 21))%Z then
    substring 0 (Z.to_nat n) digits ++ "." ++ substring (Z.to_nat n) (Z.to_nat (k - n)) digits
  else if ((-6 <? n) && (n <=? 0))%Z then "0." ++ zeros (Z.to_nat (- n)) ++ digits
  else
    let e := (n - 1)%Z in
    let exponent := (if (e <? 0)%Z then "-" else "+") ++ Z_toString (Z.abs e) in
    if (k =? 1)%Z then digits ++ "e" ++ exponent
    else substring 0 1 digits ++ "." ++ substring 1 (Z.to_nat (k - 1)) digits ++ "e" ++ exponent.

(** [Number::toString(x, 10)] *)
Definition Number_toString (x : float) : string :=
  match Prim2SF x with
  | S754_nan => "NaN"
  | S754_zero _ => "0"
  | S754_infinity false => "Infinity"
  | S754_infinity true => "-Infinity"
  | S754_finite sign m e =>
      let m := Z.pos m in
      let '(s, p) := shortest 17 1 m e (decimal_exponent m e) in
      let '(s, p) := strip_zeros 20 s p in
      (if sign then "-" else "") ++ format_decimal s p
  end.

(** ** Errors, envelopes, configuration *)

(** A thrown error object.  [status] and [data] exist on [APIError] only
    (api.js:6-13); on the engine's own errors they are [undefined]. *)
Record JsError : Type := {
  name : string;
  message : string;
  status : option Z;
  data : option JSON
}.

Definition RuntimeError (name message : string) : JsError :=
  {| name := name; message := message; status := None; data := None |}.

Definition APIError (message : string) (status : Z) (data : JSON) : JsError :=
  {| name := "APIError"; message := message; status := Some status; data := Some data |}.

(** The [error] object of a failure envelope.  [fetchData] fills the three
    fields; [getChartData] and [getMockChartData] write [message] only. *)
Record ErrorInfo : Type := {
  err_message : string;
  err_status : option Z;
  err_data : option JSON
}.

(** [{ success: true, data }] and [{ success: false, error }]. *)
Inductive Envelope : Type :=
| Success (data : JSON)
| Failure (error : ErrorInfo).

(** How an evaluation completes: normally, or by throwing; an [async]
    computation may also stay [Pending], its promise never settling. *)
Inductive Completion (A : Type) : Type :=
| Normal (a : A)
| Throw (e : JsError)
| Pending.
Arguments Normal {A} a.
Arguments Throw {A} e.
Arguments Pending {A}.

Record RetryConfig : Type := { MAX_ATTEMPTS : nat; DELAY : Z }.

Record Endpoints : Type := {
  NTP_BULANAN : string;
  NTP_INDEKS_DITERIMA_DIBAYAR : string;
  NTP_PER_SUBSEKTOR : string;
  TPAK_TAHUNAN : string;
  TPT_TAHUNAN : string;
  KOMPOSISI_TENAGA_KERJA : string;
  INFLASI : string;
  PENGELUARAN : string;
  KEMISKINAN : string;
  IPM : string;
  KETENAGAKERJAAN : string;
  FEEDBACK : string;
  KPI : string
}.

Record ApiConfig : Type := {
  BASE_URL : string;
  ENDPOINTS : Endpoints;
  TIMEOUT : Z;
  RETRY : RetryConfig
}.

(** dist/js/config.js *)
Definition API_CONFIG : ApiConfig := {|
  BASE_URL := "http://localhost:3000/api";
  ENDPOINTS := {|
    NTP_BULANAN := "/ntp/bulanan";
    NTP_INDEKS_DITERIMA_DIBAYAR := "/ntp/indeks-diterima-dibayar";
    NTP_PER_SUBSEKTOR := "/ntp/per-subsektor";
    TPAK_TAHUNAN := "/ketenagakerjaan/tpak-tahunan";
    TPT_TAHUNAN := "/ketenagakerjaan/tpt-tahunan";
    KOMPOSISI_TENAGA_KERJA := "/ketenagakerjaan/komposisi-sektor";
    INFLASI := "/inflasi";
    PENGELUARAN := "/pengeluaran";
    KEMISKINAN := "/kemiskinan";
    IPM := "/ipm";
    KETENAGAKERJAAN := "/ketenagakerjaan";
    FEEDBACK := "/feedback";
    KPI := "/kpi"
  |};
  TIMEOUT := 30000;
  RETRY := {| MAX_ATTEMPTS := 3; DELAY := 1000 |}
|}.

(** ** The environment *)

(** The [init] argument of [fetch]; an absent key is [None]. *)
Record RequestInit : Type := {
  method : option string;
  headers : option (list (string * string));
  body : option string
}.

Definition no_options : RequestInit :=
  {| method := None; headers := None; body := None |}.

(** What [response.json()] does: it resolves with the parsed body, it rejects
    with an error of the given name ([SyntaxError] for a body that is not
    JSON), or it never settles, the body never coming to an end.  The abort
    timer does not bound it: api.js:42 clears the timer as soon as the
    response has arrived, before the body is read at api.js:45 and 53. *)
Inductive BodyOutcome : Type :=
| BodyJson (v : JSON)
| BodyRejects (ename emessage : string)
| BodyStalls.

(** How one [fetch] settles.  [TimedOut]: nothing arrives before the abort
    timer of api.js:35 fires, so [fetch] rejects with the browser's
    [AbortError].  [NetworkFailure]: [fetch] rejects with a [TypeError].
    [Responded]: a response with a status line arrives.  The timer makes
    every [fetch] settle in one of these ways. *)
Inductive NetOutcome : Type :=
| TimedOut (emessage : string)
| NetworkFailure (emessage : string)
| Responded (code : Z) (payload : BodyOutcome).

Inductive Event : Type :=
| EvFetch (url : string) (init : RequestInit)
| EvAbort (after_ms : Z)
| EvWait (ms : Z).

Definition World : Type := list Event.

Definition is_fetch (e : Event) : bool :=
  match e with EvFetch _ _ => true | _ => false end.

(** Number of network calls made so far. *)
Definition fetch_count (w : World) : nat := length (filter is_fetch w).

(** The URLs requested so far, oldest first. *)
Fixpoint requested (w : World) : list string :=
  match w with
  | [] => []
  | EvFetch url _ :: rest => url :: requested rest
  | _ :: rest => requested rest
  end.

(** The delays slept so far, oldest first. *)
Fixpoint waits (w : World) : list Z :=
  match w with
  | [] => []
  | EvWait ms :: rest => ms :: waits rest
  | _ :: rest => waits rest
  end.

(** The network answers the n-th request (counted from 0) for a URL and an
    [init]. *)
Definition Network : Type := nat -> string -> RequestInit -> NetOutcome.

(** An [async] computation. *)
Definition M (A : Type) : Type := World -> Completion A * World.

Definition ret {A : Type} (a : A) : M A := fun w => (Normal a, w).

Definition throw {A : Type} (e : JsError) : M A := fun w => (Throw e, w).

(** A promise that never settles. *)
Definition pending {A : Type} : M A := fun w => (Pending, w).

(** [await]: what follows runs when the promise resolves; a rejection is
    thrown on, and nothing follows a promise that never settles. *)
Definition bind {A B : Type} (m : M A) (k : A -> M B) : M B :=
  fun w =>
    match m w with
    | (Normal a, w1) => k a w1
    | (Throw e, w1) => (Throw e, w1)
    | (Pending, w1) => (Pending, w1)
    end.

(** [promise.catch(handler)] *)
Definition catch {A : Type} (m : M A) (handler : JsError -> M A) : M A :=
  fun w =>
    match m w with
    | (Normal a, w1) => (Normal a, w1)
    | (Throw e, w1) => handler e w1
    | (Pending, w1) => (Pending, w1)
    end.

(** [await new Promise(resolve => setTimeout(resolve, ms))] *)
Definition sleep (ms : Z) : M unit := fun w => (Normal tt, (w ++ [EvWait ms])%list).

Declare Scope js_scope.
Delimit Scope js_scope with js.
Notation "x <- m ;; k" := (bind m (fun x => k))
  (at level 100, m at next level, right associativity) : js_scope.
Notation "m ;;; k" := (bind m (fun _ => k))
  (at level 100, right associativity) : js_scope.

Section Pipeline.

Variable engine : Engine.

(** ** Conversions of the language *)

(** [ToString] on a JSON value.  An array joins its elements with commas, a
    [null] element printing as nothing.  A parsed object prints as
    [[object Object]] through the inherited [toString]; when it has an own
    property [toString] (a JSON value, never callable) the conversion finds
    no primitive value and throws a [TypeError]. *)
Fixpoint ToString (v : JSON) : Completion string :=
  match v with
  | JNull => Normal "null"
  | JBool true => Normal "true"
  | JBool false => Normal "false"
  | JNum x => Normal (Number_toString x)
  | JStr s => Normal s
  | JArr items =>
      (fix join (l : list JSON) : Completion string :=
         match l with
         | [] => Normal ""
         | x :: rest =>
             match (match x with JNull => Normal "" | _ => ToString x end) with
             | Normal first =>
                 match rest with
                 | [] => Normal first
                 | _ =>
                     match join rest with
                     | Normal others => Normal (first ++ "," ++ others)
                     | other => other
                     end
                 end
             | other => other
             end
         end) items
  | JObj fields =>
      match assoc "toString" fields with
      | Some _ => Throw (RuntimeError "TypeError" (to_primitive_message engine))
      | None => Normal "[object Object]"
      end
  end.

(** [ToBoolean] on a JSON value. *)
Definition truthy (v : JSON) : bool :=
  match v with
  | JNull => false
  | JBool b => b
  | JNum x => negb (PrimFloat.is_zero x || PrimFloat.is_nan x)
  | JStr s => negb (s =? "")
  | JArr _ => true
  | JObj _ => true
  end.

(** [ToString] on a member of [Object.prototype]. *)
Definition Builtin_toString (b : Builtin) : string :=
  match b with
  | NativeFunction fname => native_function_text engine fname
  | ObjectPrototype => "[object Object]"
  end.

(** [value.key] on a parsed JSON value: reading a property of [null] throws;
    a primitive or an array has no such named property here. *)
Definition member (value : JSON) (key : string) : Completion (Property JSON) :=
  match value with
  | JNull => Throw (RuntimeError "TypeError" (null_property_message engine key))
  | JObj fields => Normal (get fields key)
  | _ => Normal Undefined
  end.

(** ** [fetchData] (api.js:22-76) *)

Record Response : Type := { resp_status : Z; resp_body : BodyOutcome }.

(** [response.ok]: the status is in the range 200-299. *)
Definition ok (r : Response) : bool :=
  ((200 <=? resp_status r) && (resp_status r <=? 299))%Z.

(** api.js:25-31: the defaults, each overridden by the caller's key. *)
Definition defaultOptions (options : RequestInit) : RequestInit :=
  {| method := match method options with Some m => Some m | None => Some "GET" end;
     headers := match headers options with
                | Some h => Some h
                | None => Some [("Content-Type", "application/json")]
                end;
     body := body options |}.

(** api.js:34-42: [fetch] raced against the abort timer. *)
Definition fetch_with_timeout (net : Network) (url : string) (init : RequestInit)
  : M Response :=
  fun w =>
    let w1 := (w ++ [EvFetch url init])%list in
    match net (fetch_count w) url init with
    | TimedOut emessage =>
        (Throw (RuntimeError "AbortError" emessage),
         (w1 ++ [EvAbort (TIMEOUT API_CONFIG)])%list)
    | NetworkFailure emessage => (Throw (RuntimeError "TypeError" emessage), w1)
    | Responded code payload =>
        (Normal {| resp_status := code; resp_body := payload |}, w1)
    end.

(** [response.json()] *)
Definition json (r : Response) : M JSON :=
  match resp_body r with
  | BodyJson v => ret v
  | BodyRejects ename emessage => throw (RuntimeError ename emessage)
  | BodyStalls => pending
  end.

Definition lift {A : Type} (c : Completion A) : M A := fun w => (c, w).

(** [errorData.message || fallback], converted to a string by the [Error]
    constructor (api.js:8, 47). *)
Definition message_or (field : Property JSON) (fallback : string)
  : Completion string :=
  match field with
  | Own v => if truthy v then ToString v else Normal fallback
  | Inherited b => Normal (Builtin_toString b)
  | Undefined => Normal fallback
  end.

(** The [try] block, api.js:33-54. *)
Definition try_block (net : Network) (url : string) (options : RequestInit)
  : M Envelope :=
  (response <- fetch_with_timeout net url (defaultOptions options) ;;
   if negb (ok response) then
     errorData <- catch (json response) (fun _ => ret (JObj [])) ;;
     field <- lift (member errorData "message") ;;
     message <- lift (message_or field
                        ("HTTP error! status: "
                         ++ Z_toString (resp_status response))) ;;
     throw (APIError message (resp_status response) errorData)
   else
     data <- json response ;;
     ret (Success data))%js.

(** [errorData] of api.js:45: the parsed body, or [{}] when the body does not
    parse.  A body that never settles binds no [errorData]; [null] stands
    for that, from which no [APIError] is built. *)
Definition errorData_of (payload : BodyOutcome) : JSON :=
  match payload with
  | BodyJson v => v
  | BodyRejects _ _ => JObj []
  | BodyStalls => JNull
  end.

(** The first argument of the [APIError] of api.js:46-50, when evaluating
    it does not throw. *)
Definition http_error_message (code : Z) (errorData : JSON) : Completion string :=
  match member errorData "message" with
  | Normal field => message_or field ("HTTP error! status: " ++ Z_toString code)
  | Throw e => Throw e
  | Pending => Pending
  end.

(** The retry condition, api.js:58-59. *)
Definition retryable (retryCount : nat) (error : JsError) : bool :=
  (retryCount <? MAX_ATTEMPTS (RETRY API_CONFIG))%nat
  && ((name error =? "AbortError") || (name error =? "TypeError")).

(** The error response, api.js:67-74. *)
Definition error_response (error : JsError) : Envelope :=
  Failure
    {| err_message :=
         if message error =? "" then "An unexpected error occurred"
         else message error;
       err_status :=
         Some (match status error with
               | Some s => if (s =? 0)%Z then 0%Z else s
               | None => 0%Z
               end);
       err_data :=
         Some (match data error with
               | Some d => if truthy d then d else JNull
               | None => JNull
               end) |}.

Definition inspect {A : Type} (a : A) : {b : A | a = b} := exist _ a eq_refl.

Equations? fetchData (net : Network) (endpoint : string) (options : RequestInit)
  (retryCount : nat) (w : World) : Completion Envelope * World
  by wf (MAX_ATTEMPTS (RETRY API_CONFIG) - retryCount) lt :=
fetchData net endpoint options retryCount w
  with try_block net (BASE_URL API_CONFIG ++ endpoint) options w := {
  | (Normal envelope, w1) => (Normal envelope, w1)
  | (Throw error, w1) with inspect (retryable retryCount error) := {
      | exist _ true _ =>
          fetchData net endpoint options (retryCount + 1)
            (w1 ++ [EvWait (DELAY (RETRY API_CONFIG) * Z.of_nat (retryCount + 1))])%list
      | exist _ false _ => (Normal (error_response error), w1) }
  | (Pending, w1) => (Pending, w1) }.
Proof.
  unfold retryable in e.
  apply andb_prop in e. destruct e as [Hlt _].
  apply Nat.ltb_lt in Hlt.
  change (3 - (retryCount + 1) < 3 - retryCount).
  change (retryCount < 3) in Hlt. lia.
Qed.

(** ** [URLSearchParams] *)

(** A filter value: a string, as the specification has it, or an array of
    strings, as [getSelectedFilters] builds it (utils.js:199-220). *)
Inductive FilterValue : Type :=
| FString (s : string)
| FArray (items : list string).

(** A Filter Set: the own enumerable properties of the [filters] object, in
    enumeration order.  Strings are the bytes of their UTF-8 encoding. *)
Definition Filters : Type := list (string * FilterValue).

(** [ToString] on a filter value; an array of strings is joined by commas. *)
Definition FilterValue_toString (value : FilterValue) : string :=
  match value with
  | FString s => s
  | FArray items => String.concat "," items
  end.

(** [new URLSearchParams(filters)]: every value is converted by [ToString]. *)
Definition URLSearchParams (filters : Filters) : list (string * string) :=
  map (fun '(key, value) => (key, FilterValue_toString value)) filters.

(** Bytes the application/x-www-form-urlencoded serializer leaves alone:
    [*], [-], [.], [_], digits and ASCII letters. *)
Definition form_safe (c : ascii) : bool :=
  let n := nat_of_ascii c in
  ((n =? 42) || (n =? 45) || (n =? 46) || (n =? 95)
   || ((48 <=? n) && (n <=? 57))
   || ((65 <=? n) && (n <=? 90))
   || ((97 <=? n) && (n <=? 122)))%nat.

Definition hex_digit (n : nat) : ascii :=
  nth n (list_ascii_of_string "0123456789ABCDEF") "0"%char.

Fixpoint urlencode (s : string) : string :=
  match s with
  | EmptyString => ""
  | String c rest =>
      let n := nat_of_ascii c in
      (if form_safe c then String c ""
       else if (n =? 32)%nat then "+"
       else String "%" (String (hex_digit (n / 16)) (String (hex_digit (n mod 16)) "")))
      ++ urlencode rest
  end.

(** [params.toString()]: [name=value] pairs joined by [&]. *)
Fixpoint URLSearchParams_toString (params : list (string * string)) : string :=
  match params with
  | [] => ""
  | (key, value) :: rest =>
      let pair := urlencode key ++ "=" ++ urlencode value in
      match rest with
      | [] => pair
      | _ => pair ++ "&" ++ URLSearchParams_toString rest
      end
  end.

(** ** The mock table (api.js:297-441) *)

(** What a chart function hands back: an envelope, or, where a lookup found a
    member of [Object.prototype], that member. *)
Inductive Returned : Type :=
| Env (envelope : Envelope)
| NotEnvelope (b : Builtin).

Definition strings (l : list string) : JSON := JArr (map JStr l).
Definition numbers (l : list float) : JSON := JArr (map JNum l).

Definition single_series (title : string) (labels : list string)
  (values : list float) (period : string) : Envelope :=
  Success (JObj [("title", JStr title); ("labels", strings labels);
                 ("values", numbers values); ("period", JStr period)]).

Definition dataset (label : string) (values : list float) (color : string) : JSON :=
  JObj [("label", JStr label); ("values", numbers values); ("color", JStr color)].

Definition multi_series (title : string) (labels : list string)
  (datasets : list JSON) (period : string) : Envelope :=
  Success (JObj [("title", JStr title); ("labels", strings labels);
                 ("datasets", JArr datasets); ("period", JStr period)]).

Definition months : list string :=
  ["Jan"; "Feb"; "Mar"; "Apr"; "Mei"; "Jun"; "Jul"; "Agu"; "Sep"; "Okt"; "Nov"; "Des"].

Definition years : list string := ["2020"; "2021"; "2022"; "2023"; "2024"].

Definition mockData : list (string * Envelope) :=
  [ ("ntp-bulanan",
     single_series "NTP Bulanan (Nilai Tukar Petani)" months
       [105.2; 104.8; 105.5; 105.1; 104.9; 105.3; 105.7; 105.4; 105.6; 105.8; 105.9; 106.1]%float
       "Januari - Desember 2024");
    ("ntp-indeks",
     multi_series "Indeks Diterima vs Dibayar Petani" months
       [ dataset "Indeks Diterima (It)"
           [105.2; 105.5; 106.0; 105.8; 105.6; 105.9; 106.2; 106.0; 106.3; 106.5; 106.7; 107.0]%float
           "#003D7A";
         dataset "Indeks Dibayar (Ib)"
           [100.0; 100.2; 100.5; 100.3; 100.1; 100.4; 100.6; 100.4; 100.7; 100.9; 101.1; 101.3]%float
           "#4FC3F7" ]
       "Januari - Desember 2024");
    ("ntp-subsektor",
     single_series "NTP per Subsektor"
       ["Tanaman Pangan"; "Hortikultura"; "Perkebunan"; "Peternakan"; "Perikanan"]
       [105.2; 104.8; 105.5; 105.1; 104.9]%float
       "2024");
    ("tpak",
     single_series "TPAK Tahunan (Tingkat Partisipasi Angkatan Kerja)" years
       [68.5; 69.2; 69.8; 70.1; 70.5]%float
       "2020-2024");
    ("tpt",
     single_series "TPT Tahunan (Tingkat Pengangguran Terbuka)" years
       [4.2; 4.8; 5.1; 4.9; 4.5]%float
       "2020-2024");
    ("komposisi-tenaga-kerja",
     multi_series "Komposisi Tenaga Kerja per Sektor" years
       [ dataset "Pertanian" [35; 34; 33; 32; 31]%float "#4CAF50";
         dataset "Industri" [15; 16; 17; 18; 19]%float "#2196F3";
         dataset "Jasa" [25; 26; 27; 28; 29]%float "#FF9800";
         dataset "Konstruksi" [10; 11; 12; 13; 14]%float "#9C27B0";
         dataset "Lainnya" [15; 13; 11; 9; 7]%float "#F44336" ]
       "2020-2024");
    ("inflasi",
     single_series "Inflasi (IHK 2022=100) Bulanan"
       ["Jan"; "Feb"; "Mar"; "Apr"; "Mei"; "Jun"]
       [2.1; 2.3; 2.0; 2.4; 2.2; 2.5]%float
       "Januari - Juni 2024");
    ("pengeluaran",
     single_series "Komposisi Pengeluaran"
       ["Makanan"; "Perumahan"; "Transportasi"; "Lainnya"]
       [45; 25; 20; 10]%float
       "2024");
    ("kemiskinan",
     single_series "Persentase Penduduk Miskin"
       ["Maret 2020"; "Sept 2020"; "Maret 2021"; "Sept 2021"; "Maret 2022"; "Sept 2022"]
       [20.5; 19.8; 19.2; 18.9; 18.5; 18.1]%float
       "2020-2022");
    ("ipm",
     single_series "Indeks Pembangunan Manusia (IPM)" years
       [65.2; 65.8; 66.4; 67.1; 67.8]%float
       "2020-2024");
    ("ketenagakerjaan",
     single_series "Tingkat Pengangguran Terbuka (TPT)" years
       [4.2; 4.8; 5.1; 4.9; 4.5]%float
       "2020-2024") ].

(** [mockData[visualizationType] || { success: false, error }]; every object
    and every function is truthy.  [filters] is not read. *)
Definition getMockChartData (visualizationType : string) (filters : Filters)
  : Returned :=
  match get mockData visualizationType with
  | Own envelope => Env envelope
  | Inherited b => NotEnvelope b
  | Undefined =>
      Env (Failure {| err_message := "Mock data not found for: " ++ visualizationType;
                      err_status := None;
                      err_data := None |})
  end.

(** ** [getChartData] (api.js:258-291) *)

(** The literal of api.js:266-278. *)
Definition endpointMap : list (string * string) :=
  let E := ENDPOINTS API_CONFIG in
  [ ("ntp-bulanan", NTP_BULANAN E);
    ("ntp-indeks", NTP_INDEKS_DITERIMA_DIBAYAR E);
    ("ntp-subsektor", NTP_PER_SUBSEKTOR E);
    ("tpak", TPAK_TAHUNAN E);
    ("tpt", TPT_TAHUNAN E);
    ("komposisi-tenaga-kerja", KOMPOSISI_TENAGA_KERJA E);
    ("inflasi", INFLASI E);
    ("pengeluaran", PENGELUARAN E);
    ("kemiskinan", KEMISKINAN E);
    ("ipm", IPM E);
    ("ketenagakerjaan", KETENAGAKERJAAN E) ].

(** [!endpoint] is false for a non-empty string and for an inherited member. *)
Definition endpoint_truthy (endpoint : Property string) : bool :=
  match endpoint with
  | Own path => negb (path =? "")
  | Inherited _ => true
  | Undefined => false
  end.

(** [`${endpoint}`] for a truthy [endpoint]. *)
Definition endpoint_text (endpoint : Property string) : string :=
  match endpoint with
  | Own path => path
  | Inherited b => Builtin_toString b
  | Undefined => "undefined"
  end.

(** [getChartData] under a given value of the switch [USE_MOCK_DATA]. *)
Definition getChartData_mode (USE_MOCK_DATA : bool) (net : Network)
  (visualizationType : string) (filters : Filters) : M Returned :=
  if USE_MOCK_DATA then
    (sleep 500 ;;;
     ret (getMockChartData visualizationType filters))%js
  else
    let endpoint := get endpointMap visualizationType in
    if negb (endpoint_truthy endpoint) then
      ret (Env (Failure {| err_message :=
                             "Unknown visualization type: " ++ visualizationType;
                           err_status := None;
                           err_data := None |}))
    else
      let queryParams := URLSearchParams_toString (URLSearchParams filters) in
      let fullEndpoint :=
        endpoint_text endpoint
        ++ (if negb (queryParams =? "") then "?" ++ queryParams else "") in
      (envelope <- fetchData net fullEndpoint no_options 0 ;;
       ret (Env envelope))%js.

(** The last two lines of [getChartData]: [fetchData] on the resolved
    endpoint, with no options. *)
Definition fetch_chart (net : Network) (fullEndpoint : string) : M Returned :=
  (envelope <- fetchData net fullEndpoint no_options 0 ;;
   ret (Env envelope))%js.

(** api.js:256: the switch as the repository ships it. *)
Definition USE_MOCK_DATA : bool := true.

Definition getChartData : Network -> string -> Filters -> M Returned :=
  getChartData_mode USE_MOCK_DATA.

(** ** The indicator getters (api.js:83-142) *)

Definition getNTPBulanan (net : Network) (filters : Filters) : M Envelope :=
  let queryParams := URLSearchParams_toString (URLSearchParams filters) in
  let endpoint :=
    NTP_BULANAN (ENDPOINTS API_CONFIG)
    ++ (if negb (queryParams =? "") then "?" ++ queryParams else "") in
  fetchData net endpoint no_options 0.

Definition getIndeksDiterimaDibayar (net : Network) (filters : Filters) : M Envelope :=
  let queryParams := URLSearchParams_toString (URLSearchParams filters) in
  let endpoint :=
    NTP_INDEKS_DITERIMA_DIBAYAR (ENDPOINTS API_CONFIG)
    ++ (if negb (queryParams =? "") then "?" ++ queryParams else "") in
  fetchData net endpoint no_options 0.

Definition getNTPPerSubsektor (net : Network) (filters : Filters) : M Envelope :=
  let queryParams := URLSearchParams_toString (URLSearchParams filters) in
  let endpoint :=
    NTP_PER_SUBSEKTOR (ENDPOINTS API_CONFIG)
    ++ (if negb (queryParams =? "") then "?" ++ queryParams else "") in
  fetchData net endpoint no_options 0.

Definition getTPAKTahunan (net : Network) (filters : Filters) : M Envelope :=
  let queryParams := URLSearchParams_toString (URLSearchParams filters) in
  let endpoint :=
    TPAK_TAHUNAN (ENDPOINTS API_CONFIG)
    ++ (if negb (queryParams =? "") then "?" ++ queryParams else "") in
  fetchData net endpoint no_options 0.

Definition getTPTTahunan (net : Network) (filters : Filters) : M Envelope :=
  let queryParams := URLSearchParams_toString (URLSearchParams filters) in
  let endpoint :=
    TPT_TAHUNAN (ENDPOINTS API_CONFIG)
    ++ (if negb (queryParams =? "") then "?" ++ queryParams else "") in
  fetchData net endpoint no_options 0.

Definition getKomposisiTenagaKerja (net : Network) (filters : Filters) : M Envelope :=
  let queryParams := URLSearchParams_toString (URLSearchParams filters) in
  let endpoint :=
    KOMPOSISI_TENAGA_KERJA (ENDPOINTS API_CONFIG)
    ++ (if negb (queryParams =? "") then "?" ++ queryParams else "") in
  fetchData net endpoint no_options 0.

(** ** [submitFeedback] (api.js:149-157) *)

(** The double quote character. *)
Definition dquote : string := String "034"%char "".

Definition hex_lower (n : nat) : ascii :=
  nth n (list_ascii_of_string "0123456789abcdef") "0"%char.

(** One character inside a JSON string literal (ECMA-262, QuoteJSONString):
    the quote and the backslash are escaped, control characters are written
    by their short escape or as [\u00XX]. *)
Definition quote_char (c : ascii) : string :=
  let n := nat_of_ascii c in
  (if n =? 8 then "\b"
   else if n =? 9 then "\t"
   else if n =? 10 then "\n"
   else if n =? 12 then "\f"
   else if n =? 13 then "\r"
   else if n =? 34 then "\" ++ dquote
   else if n =? 92 then "\\"
   else if n <? 32 then
     "\u00" ++ String (hex_lower (n / 16)) (String (hex_lower (n mod 16)) "")
   else String c "")%nat.

Fixpoint quote_chars (s : string) : string :=
  match s with
  | EmptyString => ""
  | String c rest => quote_char c ++ quote_chars rest
  end.

Definition QuoteJSONString (s : string) : string :=
  dquote ++ quote_chars s ++ dquote.

Definition is_finite (x : float) : bool :=
  match Prim2SF x with
  | S754_finite _ _ _ | S754_zero _ => true
  | _ => false
  end.

(** [JSON.stringify] on a JSON value, without indentation. *)
Fixpoint JSON_stringify (v : JSON) : string :=
  match v with
  | JNull => "null"
  | JBool true => "true"
  | JBool false => "false"
  | JNum x => if is_finite x then Number_toString x else "null"
  | JStr s => QuoteJSONString s
  | JArr items =>
      "["
      ++ (fix elements (l : list JSON) : string :=
            match l with
            | [] => ""
            | x :: rest =>
                JSON_stringify x
                ++ match rest with [] => "" | _ => "," ++ elements rest end
            end) items
      ++ "]"
  | JObj fields =>
      "{"
      ++ (fix properties (l : list (string * JSON)) : string :=
            match l with
            | [] => ""
            | (key, x) :: rest =>
                QuoteJSONString key ++ ":" ++ JSON_stringify x
                ++ match rest with [] => "" | _ => "," ++ properties rest end
            end) fields
      ++ "}"
  end.

(** The options [submitFeedback] passes. *)
Definition feedback_options (feedbackData : JSON) : RequestInit :=
  {| method := Some "POST";
     headers := Some [("Content-Type", "application/json")];
     body := Some (JSON_stringify feedbackData) |}.

Definition submitFeedback (net : Network) (feedbackData : JSON) : M Envelope :=
  fetchData net (FEEDBACK (ENDPOINTS API_CONFIG)) (feedback_options feedbackData) 0.

End Pipeline.


(** ** What the specification documents *)

(** The table of logical indicator keys and endpoint paths, as the
    specification lists it (section 6). *)
Definition documented_endpoints : list (string * string) :=
  [ ("ntp-bulanan", "/ntp/bulanan");
    ("ntp-indeks", "/ntp/indeks-diterima-dibayar");
    ("ntp-subsektor", "/ntp/per-subsektor");
    ("tpak", "/ketenagakerjaan/tpak-tahunan");
    ("tpt", "/ketenagakerjaan/tpt-tahunan");
    ("komposisi-tenaga-kerja", "/ketenagakerjaan/komposisi-sektor");
    ("inflasi", "/inflasi");
    ("pengeluaran", "/pengeluaran");
    ("kemiskinan", "/kemiskinan");
    ("ipm", "/ipm");
    ("ketenagakerjaan", "/ketenagakerjaan") ].

(** [t] occurs in [s]. *)
Definition contains (s t : string) : Prop :=
  exists before after, s = before ++ t ++ after.

(** The envelope has the shape [fetchData] documents: [Success] with data, or
    [Failure] with a message, a status and data. *)
Definition fetch_envelope (envelope : Envelope) : Prop :=
  match envelope with
  | Success _ => True
  | Failure error => err_status error <> None /\ err_data error <> None
  end.

(** The requests a call added to the log: those of [after] beyond those of
    [before]. *)
Definition issued (before after : World) : list string :=
  skipn (length (requested before)) (requested after).

(** A network on which every request times out. *)
Definition always_times_out (emessage : string) : Network :=
  fun _ _ _ => TimedOut emessage.

(** A network whose server answers every request with status 500 and the
    JSON body [null]. *)
Definition always_500_null : Network :=
  fun _ _ _ => Responded 500 (BodyJson JNull).

(** A server that sends the headers of a 200 and then never finishes the
    body. *)
Definition stalled_body : Network :=
  fun _ _ _ => Responded 200 BodyStalls.

(** A network that drops the first request and answers the later ones with
    status 200 and the given body. *)
Definition fails_once_then (v : JSON) : Network :=
  fun n _ _ =>
    match n with
    | O => NetworkFailure "Failed to fetch"
    | S _ => Responded 200 (BodyJson v)
    end.

(** [data[key]] when [data] is an object and the property is an array. *)
Definition member_array (data : JSON) (key : string) : option (list JSON) :=
  match data with
  | JObj fields =>
      match get fields key with
      | Own (JArr items) => Some items
      | _ => None
      end
  | _ => None
  end.

(** What one run of the [try] block of [fetchData] comes to, by the outcome
    of its request: the envelope returned, the error thrown, or nothing when
    the body never settles. *)
Definition attempt_result (engine : Engine) (o : NetOutcome) : Completion Envelope :=
  match o with
  | TimedOut emessage => Throw (RuntimeError "AbortError" emessage)
  | NetworkFailure emessage => Throw (RuntimeError "TypeError" emessage)
  | Responded code payload =>
      if ok {| resp_status := code; resp_body := payload |} then
        match payload with
        | BodyJson v => Normal (Success v)
        | BodyRejects ename emessage => Throw (RuntimeError ename emessage)
        | BodyStalls => Pending
        end
      else
        match payload with
        | BodyStalls => Pending
        | _ =>
            match http_error_message engine code (errorData_of payload) with
            | Normal m => Throw (APIError m code (errorData_of payload))
            | Throw e => Throw e
            | Pending => Pending
            end
        end
  end.

(** What that run appends to the log. *)
Definition attempt_log (o : NetOutcome) (url : string) (init : RequestInit)
  : list Event :=
  EvFetch url init
  :: match o with
     | TimedOut _ => [EvAbort (TIMEOUT API_CONFIG)]
     | _ => []
     end.

(** The body of the response never settles. *)
Definition stalls (o : NetOutcome) : bool :=
  match o with
  | Responded _ BodyStalls => true
  | _ => false
  end.

(** The status a failure envelope reports for the outcome of the last
    request: the status of a response outside 200-299 from which an
    [APIError] was built, else 0. *)
Definition reported_status (engine : Engine) (o : NetOutcome) : Z :=
  match o with
  | Responded code payload =>
      if ok {| resp_status := code; resp_body := payload |} then 0%Z
      else match http_error_message engine code (errorData_of payload) with
           | Normal _ => code
           | _ => 0%Z
           end
  | _ => 0%Z
  end.

(** The status field of an envelope, when it is a failure. *)
Definition err_status_of (envelope : Envelope) : option Z :=
  match envelope with
  | Failure error => err_status error
  | Success _ => None
  end.

(** The failures the specification calls transient: a timeout, or a failure
    of the transport. *)
Definition transient (o : NetOutcome) : bool :=
  match o with
  | TimedOut _ | NetworkFailure _ => true
  | Responded _ _ => false
  end.

(** ** [getSelectedFilters] (utils.js:199-220) *)

(** An [input] element of type [checkbox]: its [value] attribute, when it has
    one, and whether it is checked. *)
Record Checkbox : Type := {
  value_attribute : option string;
  checked : bool
}.

(** The checkboxes of the document, in document order. *)
Definition Page : Type := list Checkbox.

(** [checkbox.value]: the attribute, or ["on"] when there is none. *)
Definition checkbox_value (c : Checkbox) : string :=
  match value_attribute c with
  | Some v => v
  | None => "on"
  end.

(** [t] occurs in [s], decided. *)
Fixpoint includes (s t : string) : bool :=
  prefix t s
  || match s with
     | EmptyString => false
     | String _ rest => includes rest t
     end.

Definition is_digit (c : ascii) : bool :=
  ((48 <=? nat_of_ascii c) && (nat_of_ascii c <=? 57))%nat.

(** [/^\d{4}$/.test(s)] *)
Definition four_digits (s : string) : bool :=
  match s with
  | String a (String b (String c (String d EmptyString))) =>
      is_digit a && is_digit b && is_digit c && is_digit d
  | _ => false
  end.

(** The selector [input[type="checkbox"][value*="20"]:checked]. *)
Definition year_candidate (c : Checkbox) : bool :=
  checked c
  && match value_attribute c with
     | Some v => includes v "20"
     | None => false
     end.

Definition selected_years (page : Page) : list string :=
  map checkbox_value
    (filter (fun c => four_digits (checkbox_value c)) (filter year_candidate page)).

Definition selected_regions (page : Page) : list string :=
  map checkbox_value
    (filter (fun c => negb (four_digits (checkbox_value c))) (filter checked page)).

Definition getSelectedFilters (page : Page) : Filters :=
  [("years", FArray (selected_years page));
   ("regions", FArray (selected_regions page))].

(** ** [debounce] (utils.js:257-267) *)

(** The state of one debounced function: the variable [timeout] of the
    closure, the timers that are set and have not fired or been cleared, each
    with the arguments its [later] captured, and the calls of [func] made so
    far, oldest first. *)
Record Debounced (A : Type) : Type := {
  next_id : nat;
  timeout : option nat;
  timers : list (nat * A);
  func_calls : list A
}.
Arguments next_id {A} d.
Arguments timeout {A} d.
Arguments timers {A} d.
Arguments func_calls {A} d.

(** [debounce(func, wait)]: nothing is set, nothing has been called. *)
Definition debounce (A : Type) : Debounced A :=
  {| next_id := 0; timeout := None; timers := []; func_calls := [] |}.

(** [clearTimeout(id)]; clearing [undefined] or a timer that is gone does
    nothing. *)
Definition clearTimeout {A : Type} (id : option nat) (l : list (nat * A))
  : list (nat * A) :=
  match id with
  | Some i => filter (fun t => negb (fst t =? i)%nat) l
  | None => l
  end.

(** What happens to a debounced function: it is called with arguments, or a
    timer that is set comes due and its [later] runs. *)
Inductive DebounceEvent (A : Type) : Type :=
| Invoke (args : A)
| Fire (id : nat).
Arguments Invoke {A} args.
Arguments Fire {A} id.

(** [executedFunction(...args)]: clear the timer [timeout] names, set a new
    one and remember it. *)
Definition executedFunction {A : Type} (args : A) (d : Debounced A) : Debounced A :=
  {| next_id := S (next_id d);
     timeout := Some (next_id d);
     timers := (clearTimeout (timeout d) (timers d) ++ [(next_id d, args)])%list;
     func_calls := func_calls d |}.

(** [later()] of the timer [id], when that timer is still set: the timer is
    spent, [clearTimeout(timeout)] runs, then [func(...args)]. *)
Definition later {A : Type} (id : nat) (d : Debounced A) : Debounced A :=
  match find (fun t => (fst t =? id)%nat) (timers d) with
  | Some (_, args) =>
      {| next_id := next_id d;
         timeout := timeout d;
         timers := clearTimeout (timeout d) (clearTimeout (Some id) (timers d));
         func_calls := (func_calls d ++ [args])%list |}
  | None => d
  end.

Definition debounce_step {A : Type} (d : Debounced A) (e : DebounceEvent A)
  : Debounced A :=
  match e with
  | Invoke args => executedFunction args d
  | Fire id => later id d
  end.

Definition debounce_run {A : Type} (events : list (DebounceEvent A))
  (d : Debounced A) : Debounced A :=
  fold_left debounce_step events d.

(** The number of calls of the debounced function among the events. *)
Definition invocations {A : Type} (events : list (DebounceEvent A)) : nat :=
  length (filter (fun e => match e with Invoke _ => true | Fire _ => false end) events).

(** At most one timer is set, and it is the one [timeout] names. *)
Definition one_timer {A : Type} (d : Debounced A) : Prop :=
  timers d = []
  \/ exists id args, timers d = [(id, args)] /\ timeout d = Some id.

(** ** [showTooltip] (charts.js) *)

(** The element with id [tooltip]: what [showTooltip] writes. *)
Record TooltipElement : Type := {
  innerHTML : string;
  style_left : string;
  style_top : string;
  classList : list string
}.

(** The pointer position of the event and the size of the window: JavaScript
    numbers. *)
Record Pointer : Type := { pageX : float; pageY : float }.
Record Window : Type := { innerWidth : float; innerHeight : float }.

(** The position computed by [showTooltip] before it is written to the
    style: to the right of and above the pointer, flipped to the other side
    where the 200 by 60 box would cross the right or bottom edge, and pulled
    back to 10 where it would cross the left or top edge.  The arithmetic
    and the comparisons are those of binary64; [a > b] is [b < a]. *)
Definition tooltip_position (event : Pointer) (window : Window) : float * float :=
  let tooltipWidth := 200%float in
  let tooltipHeight := 60%float in
  let padding := 10%float in
  let left := (pageX event + padding)%float in
  let top := (pageY event - padding)%float in
  let left :=
    if (innerWidth window <? left + tooltipWidth)%float
    then (pageX event - tooltipWidth - padding)%float else left in
  let top :=
    if (innerHeight window <? top + tooltipHeight)%float
    then (pageY event - tooltipHeight - padding)%float else top in
  let left := if (left <? 0)%float then padding else left in
  let top := if (top <? 0)%float then padding else top in
  (left, top).

(** [classList.add(token)] *)
Definition classList_add (token : string) (l : list string) : list string :=
  if existsb (String.eqb token) l then l else (l ++ [token])%list.

(** [showTooltip(event, label, value)] on the document's tooltip element, if
    any.  [formatted] is the text [formatNumber(value)] gives. *)
Definition showTooltip (event : Pointer) (window : Window) (label formatted : string)
  (tooltip : option TooltipElement) : option TooltipElement :=
  match tooltip with
  | None => None
  | Some t =>
      let position := tooltip_position event window in
      Some {| innerHTML := "<strong>" ++ label ++ "</strong><br/>Nilai: " ++ formatted;
              style_left := Number_toString (fst position) ++ "px";
              style_top := Number_toString (snd position) ++ "px";
              classList := classList_add "show" (classList t) |}
  end.

(** [hideTooltip()]: [classList.remove('show')] on the tooltip element, if
    any. *)
Definition hideTooltip (tooltip : option TooltipElement) : option TooltipElement :=
  match tooltip with
  | None => None
  | Some t =>
      Some {| innerHTML := innerHTML t;
              style_left := style_left t;
              style_top := style_top t;
              classList := filter (fun token => negb (token =? "show")) (classList t) |}
  end.

(** ** Measures used by the properties *)

(** Occurrences of a character in a string. *)
Fixpoint count_char (c : ascii) (s : string) : nat :=
  match s with
  | EmptyString => 0
  | String d rest => (if Ascii.eqb c d then 1 else 0) + count_char c rest
  end.

(** The time the timers of a log account for: aborted requests and waits. *)
Fixpoint timer_total (w : World) : Z :=
  match w with
  | [] => 0
  | EvFetch _ _ :: rest => timer_total rest
  | EvAbort ms :: rest => ms + timer_total rest
  | EvWait ms :: rest => ms + timer_total rest
  end.

(** The linear back-off: the waits before retries [retryCount + 1], ...,
    [retryCount + k]. *)
Definition backoff (retryCount k : nat) : list Z :=
  map (fun i => (DELAY (RETRY API_CONFIG) * Z.of_nat (retryCount + i))%Z) (seq 1 k).

(** Induction on JSON values that reaches the elements of an array. *)
Fixpoint JSON_array_ind (P : JSON -> Prop)
  (Hnull : P JNull) (Hbool : forall b, P (JBool b)) (Hnum : forall x, P (JNum x))
  (Hstr : forall s, P (JStr s))
  (Harr : forall items, Forall P items -> P (JArr items))
  (Hobj : forall fields, P (JObj fields))
  (v : JSON) : P v :=
  match v with
  | JNull => Hnull
  | JBool b => Hbool b
  | JNum x => Hnum x
  | JStr s => Hstr s
  | JArr items =>
      Harr items
        ((fix all (l : list JSON) : Forall P l :=
            match l with
            | [] => Forall_nil P
            | x :: rest =>
                Forall_cons x
                  (JSON_array_ind P Hnull Hbool Hnum Hstr Harr Hobj x) (all rest)
            end) items)
  | JObj fields => Hobj fields
  end.

(** The [init] of every request of a log is [init]. *)
Definition requests_carry (init : RequestInit) (w : World) : Prop :=
  forall url init', In (EvFetch url init') w -> init' = init.

(** Percent-decoding of a form-encoded component, the inverse the server
    applies: [+] is a space, [%XY] is the byte with hexadecimal digits [XY]. *)
Definition hex_value (c : ascii) : option nat :=
  let n := nat_of_ascii c in
  if ((48 <=? n) && (n <=? 57))%nat then Some (n - 48)
  else if ((65 <=? n) && (n <=? 70))%nat then Some (n - 55)
  else None.

Fixpoint urldecode (s : string) : string :=
  match s with
  | EmptyString => ""
  | String c rest =>
      if Ascii.eqb c "+" then String " " (urldecode rest)
      else if Ascii.eqb c "%" then
        match rest with
        | String h (String l rest') =>
            match hex_value h, hex_value l with
            | Some a, Some b => String (ascii_of_nat (16 * a + b)) (urldecode rest')
            | _, _ => String c (urldecode rest)
            end
        | _ => String c (urldecode rest)
        end
      else String c (urldecode rest)
  end.

(** The bytes [urlencode] writes for one byte. *)
Definition encode_byte (c : ascii) : string :=
  let n := nat_of_ascii c in
  if form_safe c then String c ""
  else if (n =? 32)%nat then "+"
  else String "%" (String (hex_digit (n / 16)) (String (hex_digit (n mod 16)) "")).

(** One [name=value] pair of the serializer. *)
Definition pair_text (key value : string) : string :=
  urlencode key ++ "=" ++ urlencode value.

(** The pieces of [s] between the occurrences of [c]. *)
Fixpoint split_on (c : ascii) (s : string) : list string :=
  match s with
  | EmptyString => [""]
  | String d rest =>
      if Ascii.eqb c d then "" :: split_on c rest
      else match split_on c rest with
           | h :: t => String d h :: t
           | [] => [String d ""]
           end
  end.

(** [s] cut at the first occurrence of [c]. *)
Fixpoint split_first (c : ascii) (s : string) : string * string :=
  match s with
  | EmptyString => ("", "")
  | String d rest =>
      if Ascii.eqb c d then ("", rest)
      else let (before, after) := split_first c rest in (String d before, after)
  end.

(** The parser of application/x-www-form-urlencoded, which reads a query
    string back: split at [&], drop empty pieces, cut each at its first [=],
    decode both halves. *)
Definition parse_query (s : string) : list (string * string) :=
  map (fun component =>
         let (key, value) := split_first "=" component in
         (urldecode key, urldecode value))
      (filter (fun component => negb (component =? "")) (split_on "&" s)).

(** * Properties *)

Section Proofs.

Local Open Scope list_scope.

Variable engine : Engine.

(** ** The log *)

Lemma fetch_count_app (w1 w2 : World) :
  fetch_count (w1 ++ w2) = fetch_count w1 + fetch_count w2.
Proof.
  unfold fetch_count. rewrite filter_app, length_app. reflexivity.
Qed.

Lemma requested_app (w1 w2 : World) :
  requested (w1 ++ w2) = requested w1 ++ requested w2.
Proof.
  induction w1 as [| e w1 IH]; simpl; [reflexivity |].
  destruct e; simpl; rewrite IH; reflexivity.
Qed.

Lemma waits_app (w1 w2 : World) :
  waits (w1 ++ w2) = waits w1 ++ waits w2.
Proof.
  induction w1 as [| e w1 IH]; simpl; [reflexivity |].
  destruct e; simpl; rewrite IH; reflexivity.
Qed.

Lemma issued_app (w : World) (l : list string) (w' : World) :
  requested w' = requested w ++ l -> issued w w' = l.
Proof.
  intros H. unfold issued. rewrite H, skipn_app, Nat.sub_diag, skipn_all.
  reflexivity.
Qed.

(** ** One step of [fetchData] *)

(** The body of [fetchData], with the recursive call left folded. *)
Lemma fetchData_step (net : Network) (endpoint : string) (options : RequestInit)
  (retryCount : nat) (w : World) :
  fetchData engine net endpoint options retryCount w =
  match try_block engine net (BASE_URL API_CONFIG ++ endpoint)%string options w with
  | (Normal envelope, w1) => (Normal envelope, w1)
  | (Throw error, w1) =>
      if retryable retryCount error then
        fetchData engine net endpoint options (retryCount + 1)
          (w1 ++ [EvWait (DELAY (RETRY API_CONFIG) * Z.of_nat (retryCount + 1))])
      else (Normal (error_response error), w1)
  | (Pending, w1) => (Pending, w1)
  end.
Proof.
  rewrite fetchData_equation_1.
  destruct (try_block engine net (BASE_URL API_CONFIG ++ endpoint)%string options w)
    as [[envelope | error |] w1].
  3: apply fetchData_clause_1_equation_3.
  - apply fetchData_clause_1_equation_1.
  - rewrite fetchData_clause_1_equation_2.
    assert (Hclause : forall b (Hb : retryable retryCount error = b),
      fetchData_unfold_clause_1_clause_2 engine net endpoint options retryCount w
        error (exist _ b Hb) w1 =
      if b then
        fetchData engine net endpoint options (retryCount + 1)
          (w1 ++ [EvWait (DELAY (RETRY API_CONFIG) * Z.of_nat (retryCount + 1))])
      else (Normal (error_response error), w1)).
    { intros [] Hb.
      - apply fetchData_clause_1_clause_2_equation_1.
      - apply fetchData_clause_1_clause_2_equation_2. }
    apply (Hclause _ eq_refl).
Qed.

(** ** The [try] block, outcome by outcome *)

Section TryBlock.

Variables (net : Network) (url : string) (options : RequestInit) (w : World).

(** The [try] block, in one equation. *)
Lemma try_block_outcome :
  try_block engine net url options w =
  (attempt_result engine (net (fetch_count w) url (defaultOptions options)),
   w ++ attempt_log (net (fetch_count w) url (defaultOptions options)) url
          (defaultOptions options)).
Proof.
  unfold try_block, bind, fetch_with_timeout, attempt_result, attempt_log.
  destruct (net (fetch_count w) url (defaultOptions options))
    as [m | m | code payload].
  - rewrite <- app_assoc. reflexivity.
  - reflexivity.
  - destruct (ok {| resp_status := code; resp_body := payload |}); cbn [negb].
    + destruct payload; reflexivity.
    + unfold http_error_message.
      destruct payload as [v | ename emessage |]; cbn [catch json resp_body ret throw
        pending errorData_of lift resp_status]; try reflexivity.
      destruct (member engine v "message") as [field | e |]; try reflexivity.
      destruct (message_or engine field _); reflexivity.
Qed.

Lemma try_block_timed_out (emessage : string) :
  net (fetch_count w) url (defaultOptions options) = TimedOut emessage ->
  try_block engine net url options w =
  (Throw (RuntimeError "AbortError" emessage),
   w ++ [EvFetch url (defaultOptions options); EvAbort (TIMEOUT API_CONFIG)]).
Proof. intros H. rewrite try_block_outcome, H. reflexivity. Qed.

Lemma try_block_network_failure (emessage : string) :
  net (fetch_count w) url (defaultOptions options) = NetworkFailure emessage ->
  try_block engine net url options w =
  (Throw (RuntimeError "TypeError" emessage), w ++ [EvFetch url (defaultOptions options)]).
Proof. intros H. rewrite try_block_outcome, H. reflexivity. Qed.

Lemma try_block_success (code : Z) (v : JSON) :
  net (fetch_count w) url (defaultOptions options) = Responded code (BodyJson v) ->
  (200 <= code <= 299)%Z ->
  try_block engine net url options w =
  (Normal (Success v), w ++ [EvFetch url (defaultOptions options)]).
Proof.
  intros H Hcode. rewrite try_block_outcome, H. unfold attempt_result, ok.
  cbn [resp_status].
  replace (200 <=? code)%Z with true by (symmetry; apply Z.leb_le; lia).
  replace (code <=? 299)%Z with true by (symmetry; apply Z.leb_le; lia).
  reflexivity.
Qed.

(** A response outside 200-299 whose body text is the JSON [null]: reading
    [errorData.message] throws a [TypeError] inside the [try]. *)
Lemma try_block_null_error_body (code : Z) :
  net (fetch_count w) url (defaultOptions options) = Responded code (BodyJson JNull) ->
  ok {| resp_status := code; resp_body := BodyJson JNull |} = false ->
  try_block engine net url options w =
  (Throw (RuntimeError "TypeError" (null_property_message engine "message")),
   w ++ [EvFetch url (defaultOptions options)]).
Proof.
  intros H Hok. rewrite try_block_outcome, H. unfold attempt_result.
  rewrite Hok. reflexivity.
Qed.


(** Every run of the [try] block logs exactly one request, for [url], and no
    wait. *)
Lemma try_block_log :
  exists tail,
    snd (try_block engine net url options w)
    = w ++ EvFetch url (defaultOptions options) :: tail
    /\ requested tail = [] /\ waits tail = [].
Proof.
  rewrite try_block_outcome. cbn [snd]. unfold attempt_log.
  eexists. split; [reflexivity |].
  destruct (net (fetch_count w) url (defaultOptions options)); auto.
Qed.

End TryBlock.

(** ** Induction along the retries *)

(** A property of a call and its result holds of every call of [fetchData]
    when it holds where the [try] block returns, where the error is not
    retried, and is carried from a retry to the call that made it, and where the body read
    never settles. *)
Lemma fetchData_inv (net : Network) (endpoint : string) (options : RequestInit)
  (P : nat -> World -> Completion Envelope * World -> Prop) :
  (forall retryCount w envelope w1,
      try_block engine net (BASE_URL API_CONFIG ++ endpoint)%string options w
      = (Normal envelope, w1) ->
      P retryCount w (Normal envelope, w1)) ->
  (forall retryCount w error w1,
      try_block engine net (BASE_URL API_CONFIG ++ endpoint)%string options w
      = (Throw error, w1) ->
      retryable retryCount error = false ->
      P retryCount w (Normal (error_response error), w1)) ->
  (forall retryCount w error w1 result,
      try_block engine net (BASE_URL API_CONFIG ++ endpoint)%string options w
      = (Throw error, w1) ->
      retryable retryCount error = true ->
      P (retryCount + 1)
        (w1 ++ [EvWait (DELAY (RETRY API_CONFIG) * Z.of_nat (retryCount + 1))])
        result ->
      P retryCount w result) ->
  (forall retryCount w w1,
      try_block engine net (BASE_URL API_CONFIG ++ endpoint)%string options w
      = (Pending, w1) ->
      P retryCount w (Pending, w1)) ->
  forall retryCount w, P retryCount w (fetchData engine net endpoint options retryCount w).
Proof.
  intros Hreturn Hfail Hretry Hstall retryCount.
  remember (MAX_ATTEMPTS (RETRY API_CONFIG) - retryCount) as budget eqn:Hbudget.
  revert retryCount Hbudget.
  induction budget as [| budget IH]; intros retryCount Hbudget w;
    rewrite fetchData_step;
    destruct (try_block engine net (BASE_URL API_CONFIG ++ endpoint)%string options w)
      as [[envelope | error |] w1] eqn:Htry;
    try (eapply Hreturn; eassumption);
    try (eapply Hstall; eassumption);
    destruct (retryable retryCount error) eqn:Hr;
    try (eapply Hfail; eassumption).
  - unfold retryable in Hr. apply andb_prop in Hr. destruct Hr as [Hlt _].
    apply Nat.ltb_lt in Hlt. lia.
  - eapply Hretry; try eassumption. apply IH.
    unfold retryable in Hr. apply andb_prop in Hr. destruct Hr as [Hlt _].
    apply Nat.ltb_lt in Hlt. lia.
Qed.

(** [fetchData] only appends to the log: at least one request, all for the
    same URL. *)
Lemma fetchData_requests (net : Network) (endpoint : string) (options : RequestInit)
  (retryCount : nat) (w : World) :
  exists k,
    requested (snd (fetchData engine net endpoint options retryCount w))
    = requested w ++ repeat (BASE_URL API_CONFIG ++ endpoint)%string (S k).
Proof.
  set (url := (BASE_URL API_CONFIG ++ endpoint)%string).
  assert (Hone : forall w0 c w1,
             try_block engine net url options w0 = (c, w1) ->
             requested w1 = requested w0 ++ [url]).
  { intros w0 c w1 Htry.
    destruct (try_block_log net url options w0) as (tail & Hlog & Hreq & _).
    rewrite Htry in Hlog. cbn [snd] in Hlog. subst w1.
    rewrite requested_app. cbn [requested]. rewrite Hreq. reflexivity. }
  apply (fetchData_inv net endpoint options
           (fun _ w r => exists k, requested (snd r) = requested w ++ repeat url (S k))).
  - intros _ w0 envelope w1 Htry. exists 0. apply (Hone _ _ _ Htry).
  - intros _ w0 error w1 Htry _. exists 0. apply (Hone _ _ _ Htry).
  - intros rc w0 error w1 result Htry _ [k Hk]. exists (S k).
    rewrite Hk, requested_app, (Hone _ _ _ Htry), app_nil_r, <- app_assoc.
    reflexivity.
  - intros _ w0 w1 Htry. exists 0. apply (Hone _ _ _ Htry).
Qed.

Lemma try_block_returns_success (net : Network) (url : string)
  (options : RequestInit) (w : World) (envelope : Envelope) (w1 : World) :
  try_block engine net url options w = (Normal envelope, w1) ->
  exists v, envelope = Success v.
Proof.
  rewrite try_block_outcome. unfold attempt_result.
  destruct (net (fetch_count w) url (defaultOptions options))
    as [m | m | code payload]; try discriminate.
  destruct (ok {| resp_status := code; resp_body := payload |}).
  - destruct payload as [v | n m |]; intros H; inversion H. eauto.
  - destruct payload as [v | n m |]; try discriminate;
      destruct (http_error_message engine code _); discriminate.
Qed.

(** ** Retry on timeout *)

Ltac retry_on_timeout Hnet :=
  rewrite fetchData_step, (try_block_timed_out _ _ _ _ _ (Hnet _ _ _));
  replace (retryable _ (RuntimeError "AbortError" _)) with true by reflexivity;
  cbv iota.

(** The whole run against a network that never answers in time: four
    attempts, each ended by the abort timer, with three waits between them. *)
Lemma fetchData_timeout_log (net : Network) (endpoint : string)
  (options : RequestInit) (emessage : string) (w : World) :
  (forall n url init, net n url init = TimedOut emessage) ->
  let attempt :=
    [EvFetch (BASE_URL API_CONFIG ++ endpoint)%string (defaultOptions options);
     EvAbort (TIMEOUT API_CONFIG)] in
  fetchData engine net endpoint options 0 w =
  (Normal (error_response (RuntimeError "AbortError" emessage)),
   w ++ attempt ++ [EvWait 1000] ++ attempt ++ [EvWait 2000]
     ++ attempt ++ [EvWait 3000] ++ attempt).
Proof.
  intros Hnet attempt.
  do 3 retry_on_timeout Hnet.
  rewrite fetchData_step, (try_block_timed_out _ _ _ _ _ (Hnet _ _ _)).
  replace (retryable _ (RuntimeError "AbortError" _)) with false by reflexivity.
  cbv iota. f_equal. subst attempt.
  repeat rewrite <- app_assoc. reflexivity.
Qed.

(** C1 (as the code has it).  Against a request executor that times out on
    every call, [fetchData] makes the initial attempt and [MAX_ATTEMPTS] = 3
    retries, four invocations in all; it waits [DELAY * 1], [DELAY * 2],
    [DELAY * 3] before retries 1, 2, 3; and it returns the failure envelope of
    the last timeout: the abort message (or the default text when that is
    empty), status 0, data [null]. *)
Theorem fetchData_timeout_retries (net : Network) (endpoint : string)
  (options : RequestInit) (emessage : string) (w : World) :
  (forall n url init, net n url init = TimedOut emessage) ->
  let result := fetchData engine net endpoint options 0 w in
  fst result =
    Normal (Failure {| err_message :=
                         if (emessage =? "")%string
                         then "An unexpected error occurred"%string
                         else emessage;
                       err_status := Some 0%Z;
                       err_data := Some JNull |})
  /\ fetch_count (snd result) = fetch_count w + (1 + MAX_ATTEMPTS (RETRY API_CONFIG))
  /\ waits (snd result)
     = waits w ++ map (fun n => (DELAY (RETRY API_CONFIG) * n)%Z) [1; 2; 3]%Z.
Proof.
  intros Hnet result. subst result.
  rewrite (fetchData_timeout_log net endpoint options emessage w Hnet).
  cbn [fst snd]. repeat split.
  - rewrite fetch_count_app. reflexivity.
  - rewrite waits_app. reflexivity.
Qed.

(** ** One envelope per call *)

(** Conversions and property reads are synchronous: they settle. *)
Lemma ToString_settles (v : JSON) : ToString engine v <> Pending.
Proof.
  induction v as [| b | x | s0 | items IHitems | fields]
    using JSON_array_ind; cbn [ToString]; try discriminate.
  - destruct b; discriminate.
  - induction IHitems as [| x rest Hx _ IHrest]; [discriminate |].
    destruct (match x with JNull => Normal ""%string | _ => ToString engine x end)
      as [first | err |] eqn:Hhead.
    + destruct rest as [| y rest']; [discriminate |].
      match goal with
      | |- context [match ?j with Normal _ => _ | Throw _ => _ | Pending => _ end] =>
          destruct j as [others | err |] eqn:Hrest
      end; try discriminate.
      exfalso. apply IHrest. reflexivity.
    + discriminate.
    + destruct x; try discriminate; contradiction.
  - destruct (assoc "toString" fields); discriminate.
Qed.

Lemma http_error_message_settles (code : Z) (errorData : JSON) :
  http_error_message engine code errorData <> Pending.
Proof.
  unfold http_error_message, member.
  destruct errorData as [| b | x | s0 | items | fields]; try discriminate.
  unfold message_or. destruct (get fields "message") as [v | b |]; try discriminate.
  destruct (truthy v); [apply ToString_settles | discriminate].
Qed.

(** The [try] block stays pending only on a response whose body never
    settles. *)
Lemma try_block_pending_inv (net : Network) (url : string) (options : RequestInit)
  (w w1 : World) :
  try_block engine net url options w = (Pending, w1) ->
  stalls (net (fetch_count w) url (defaultOptions options)) = true.
Proof.
  rewrite try_block_outcome. unfold attempt_result.
  destruct (net (fetch_count w) url (defaultOptions options))
    as [m | m | code payload]; try discriminate.
  destruct (ok {| resp_status := code; resp_body := payload |});
    destruct payload as [v | ename emessage |]; try discriminate;
    try reflexivity;
    destruct (http_error_message engine code _) eqn:Hm; try discriminate;
    destruct (http_error_message_settles _ _ Hm).
Qed.

(** A call of [fetchData] returns one envelope, or stays pending on a
    response to one of its requests whose body never settles; it never
    throws. *)
Lemma fetchData_envelope_or_stalled (net : Network) (endpoint : string)
  (options : RequestInit) (retryCount : nat) (w : World) :
  (exists envelope w',
      fetchData engine net endpoint options retryCount w = (Normal envelope, w')
      /\ fetch_envelope envelope)
  \/ (exists n w',
         fetchData engine net endpoint options retryCount w = (Pending, w')
         /\ stalls (net n (BASE_URL API_CONFIG ++ endpoint)%string
                      (defaultOptions options)) = true).
Proof.
  apply (fetchData_inv net endpoint options
           (fun _ _ r =>
              (exists envelope w',
                  r = (Normal envelope, w') /\ fetch_envelope envelope)
              \/ (exists n w',
                     r = (Pending, w')
                     /\ stalls (net n (BASE_URL API_CONFIG ++ endpoint)%string
                                  (defaultOptions options)) = true))).
  - intros _ w0 envelope w1 Htry. left.
    destruct (try_block_returns_success _ _ _ _ _ _ Htry) as [v ->].
    exists (Success v), w1. split; [reflexivity | exact I].
  - intros _ w0 error w1 _ _. left.
    exists (error_response error), w1. split; [reflexivity |].
    simpl. split; discriminate.
  - intros _ _ _ _ result _ _ H. exact H.
  - intros _ w0 w1 Htry. right. exists (fetch_count w0), w1.
    split; [reflexivity |]. apply (try_block_pending_inv _ _ _ _ _ Htry).
Qed.

(** C7 (as the code has it).  Every call of [fetchData] in which the body of
    no response to its requests stalls, whatever else the network does and
    whatever [retryCount] it is given, returns normally with exactly one
    envelope, [Success] with data or [Failure] with message, status and
    data; it does not complete by throwing. *)
Theorem fetchData_one_envelope_when_bodies_settle (net : Network)
  (endpoint : string) (options : RequestInit) (retryCount : nat) (w : World) :
  (forall n,
      stalls (net n (BASE_URL API_CONFIG ++ endpoint)%string
                (defaultOptions options)) = false) ->
  exists envelope w',
    fetchData engine net endpoint options retryCount w = (Normal envelope, w')
    /\ fetch_envelope envelope.
Proof.
  intros Hsettle.
  destruct (fetchData_envelope_or_stalled net endpoint options retryCount w)
    as [H | (n & w' & _ & Hstall)]; [exact H |].
  rewrite Hsettle in Hstall. discriminate.
Qed.

(** ** Responses with an error status *)



(** C2 (where the code departs from it).  A server that answers status 500
    with the JSON body [null] is retried like a transport failure: reading
    [errorData.message] throws a [TypeError] inside the [try] block, so
    [fetchData] makes four requests with waits of 1000, 2000 and 3000 ms, and
    the envelope it returns carries that [TypeError], with status 0 in place
    of 500. *)
Theorem fetchData_retries_500_null_body (endpoint : string)
  (options : RequestInit) (w : World) :
  let result := fetchData engine always_500_null endpoint options 0 w in
  fst result =
    Normal (error_response
              (RuntimeError "TypeError" (null_property_message engine "message")))
  /\ fetch_count (snd result) = fetch_count w + 4
  /\ waits (snd result) = waits w ++ [1000; 2000; 3000]%Z.
Proof.
  intros result. subst result.
  assert (Hnull : forall w0,
    try_block engine always_500_null (BASE_URL API_CONFIG ++ endpoint)%string
      options w0 =
    (Throw (RuntimeError "TypeError" (null_property_message engine "message")),
     w0 ++ [EvFetch (BASE_URL API_CONFIG ++ endpoint)%string (defaultOptions options)])).
  { intros w0. apply (try_block_null_error_body _ _ _ _ 500); reflexivity. }
  do 3 (rewrite fetchData_step, Hnull;
        replace (retryable _ (RuntimeError "TypeError" _)) with true by reflexivity;
        cbv iota).
  rewrite fetchData_step, Hnull.
  replace (retryable _ (RuntimeError "TypeError" _)) with false by reflexivity.
  cbv iota. cbn [fst snd]. repeat split.
  - repeat rewrite fetch_count_app. cbn. lia.
  - repeat rewrite waits_app. cbn. repeat rewrite <- app_assoc.
    rewrite ?app_nil_r. reflexivity.
Qed.

(** ** Retry, then success *)

(** C3.  When the first request fails with a timeout or a transport failure
    and the second one is answered with a status in 200-299 and a body that
    parses, [fetchData] returns the [Success] envelope of that body after
    exactly two requests, having waited [DELAY] once. *)
Theorem fetchData_retry_then_success (net : Network) (endpoint : string)
  (options : RequestInit) (code : Z) (v : JSON) (w : World) :
  let url := (BASE_URL API_CONFIG ++ endpoint)%string in
  let init := defaultOptions options in
  transient (net (fetch_count w) url init) = true ->
  net (S (fetch_count w)) url init = Responded code (BodyJson v) ->
  (200 <= code <= 299)%Z ->
  let result := fetchData engine net endpoint options 0 w in
  fst result = Normal (Success v)
  /\ fetch_count (snd result) = fetch_count w + 2
  /\ waits (snd result) = waits w ++ [DELAY (RETRY API_CONFIG)].
Proof.
  intros url init Hfirst Hsecond Hcode result. subst result.
  rewrite fetchData_step. fold url.
  destruct (net (fetch_count w) url init) as [m | m | c p] eqn:Hnet;
    try discriminate.
  - rewrite (try_block_timed_out net url options w m Hnet).
    replace (retryable _ (RuntimeError "AbortError" _)) with true by reflexivity.
    cbv iota. rewrite fetchData_step. fold url.
    rewrite (try_block_success net url options _ code v); try assumption.
    + cbn [fst snd]. repeat split.
      * repeat rewrite fetch_count_app. cbn. lia.
      * repeat rewrite waits_app. cbn. rewrite ?app_nil_r. reflexivity.
    + repeat rewrite fetch_count_app. cbn [fetch_count filter is_fetch length].
      rewrite Nat.add_0_r, Nat.add_1_r. exact Hsecond.
  - rewrite (try_block_network_failure net url options w m Hnet).
    replace (retryable _ (RuntimeError "TypeError" _)) with true by reflexivity.
    cbv iota. rewrite fetchData_step. fold url.
    rewrite (try_block_success net url options _ code v); try assumption.
    + cbn [fst snd]. repeat split.
      * repeat rewrite fetch_count_app. cbn. lia.
      * repeat rewrite waits_app. cbn. rewrite ?app_nil_r. reflexivity.
    + repeat rewrite fetch_count_app. cbn [fetch_count filter is_fetch length].
      rewrite Nat.add_0_r, Nat.add_1_r. exact Hsecond.
Qed.

(** ** Strings *)

Lemma append_empty_r (s : string) : (s ++ "")%string = s.
Proof. induction s as [| c s IH]; simpl; [| rewrite IH]; reflexivity. Qed.

Lemma append_eq_empty (a b : string) :
  (a ++ b)%string = ""%string -> a = ""%string /\ b = ""%string.
Proof. destruct a; simpl; [auto | discriminate]. Qed.

Lemma contains_suffix (prefix key : string) : contains (prefix ++ key)%string key.
Proof. exists prefix, ""%string. rewrite append_empty_r. reflexivity. Qed.

Lemma URLSearchParams_toString_nonempty (params : list (string * string)) :
  params <> [] -> URLSearchParams_toString params <> ""%string.
Proof.
  destruct params as [| [key value] rest]; [contradiction |].
  intros _ H. simpl in H.
  assert (Hpair : (urlencode key ++ "=" ++ urlencode value)%string <> ""%string).
  { intros Hp. apply append_eq_empty in Hp. destruct Hp as [_ Hp]. discriminate. }
  destruct rest.
  - contradiction.
  - apply append_eq_empty in H. destruct H as [H _]. contradiction.
Qed.

(** ** [getChartData], live mode *)

Lemma fetch_chart_issued (net : Network) (fullEndpoint : string) (w : World) :
  exists k,
    issued w (snd (fetch_chart engine net fullEndpoint w))
    = repeat (BASE_URL API_CONFIG ++ fullEndpoint)%string (S k).
Proof.
  destruct (fetchData_requests net fullEndpoint no_options 0 w) as [k Hk].
  exists k. apply issued_app. unfold fetch_chart, bind.
  destruct (fetchData engine net fullEndpoint no_options 0 w) as [[envelope | e |] w1];
    exact Hk.
Qed.

Lemma endpointMap_documented (key path : string) :
  In (key, path) documented_endpoints ->
  get endpointMap key = Own path /\ path <> ""%string.
Proof.
  intros Hin. unfold documented_endpoints in Hin. simpl in Hin.
  repeat (destruct Hin as [Hin | Hin];
          [inversion Hin; subst; split; [reflexivity | discriminate] |]).
  contradiction.
Qed.

Lemma getChartData_live_known (net : Network) (key path : string)
  (filters : Filters) (w : World) :
  get endpointMap key = Own path ->
  path <> ""%string ->
  let queryParams := URLSearchParams_toString (URLSearchParams filters) in
  getChartData_mode engine false net key filters w =
  fetch_chart engine net
    (path ++ (if negb (queryParams =? "") then "?" ++ queryParams else ""))%string w.
Proof.
  intros Hget Hpath queryParams. unfold getChartData_mode, fetch_chart.
  rewrite Hget. cbn [endpoint_truthy endpoint_text].
  destruct (path =? "")%string eqn:He;
    [apply String.eqb_eq in He; contradiction |].
  reflexivity.
Qed.

(** X23.  A key that is neither in the endpoint table nor a member of
    [Object.prototype] is refused without touching the network, by a failure
    whose message ends with the key. *)
Lemma getChartData_live_unknown_key (net : Network) (key : string)
  (filters : Filters) (w : World) :
  assoc key endpointMap = None ->
  assoc key Object_prototype = None ->
  getChartData_mode engine false net key filters w =
  (Normal (Env (Failure
     {| err_message := ("Unknown visualization type: " ++ key)%string;
        err_status := None;
        err_data := None |})), w)
  /\ contains ("Unknown visualization type: " ++ key)%string key.
Proof.
  intros Hown Hproto. split; [| apply contains_suffix].
  unfold getChartData_mode, get. rewrite Hown, Hproto. reflexivity.
Qed.

(** C4.  For each of the eleven documented keys, [getChartData] in live mode
    with an empty Filter Set is [fetchData] on exactly the documented path:
    every request of the call goes to the base URL followed by that path, with
    no query string. *)
Theorem getChartData_live_documented_path (key path : string)
  (net : Network) (w : World) :
  In (key, path) documented_endpoints ->
  getChartData_mode engine false net key [] w = fetch_chart engine net path w
  /\ exists k,
       issued w (snd (getChartData_mode engine false net key [] w))
       = repeat (BASE_URL API_CONFIG ++ path)%string (S k).
Proof.
  intros Hin. destruct (endpointMap_documented key path Hin) as [Hget Hpath].
  assert (Heq : getChartData_mode engine false net key [] w = fetch_chart engine net path w).
  { rewrite (getChartData_live_known net key path [] w Hget Hpath).
    cbn. rewrite append_empty_r. reflexivity. }
  split; [exact Heq |]. rewrite Heq. apply fetch_chart_issued.
Qed.

(** C5.  For a documented key and a non-empty Filter Set, two resolutions,
    against any two networks and from any two logs, request the same URL: the
    base URL, the documented path, [?] and the serialized Filter Set, which is
    not empty.  The query string is a function of the Filter Set alone. *)
Theorem getChartData_query_deterministic (key path : string) (filters : Filters)
  (net1 net2 : Network) (w1 w2 : World) :
  In (key, path) documented_endpoints ->
  filters <> [] ->
  let queryParams := URLSearchParams_toString (URLSearchParams filters) in
  let url := (BASE_URL API_CONFIG ++ path ++ "?" ++ queryParams)%string in
  queryParams <> ""%string
  /\ exists k1 k2,
       issued w1 (snd (getChartData_mode engine false net1 key filters w1))
       = repeat url (S k1)
       /\ issued w2 (snd (getChartData_mode engine false net2 key filters w2))
          = repeat url (S k2).
Proof.
  intros Hin Hfilters queryParams url.
  destruct (endpointMap_documented key path Hin) as [Hget Hpath].
  assert (Hq : queryParams <> ""%string).
  { apply URLSearchParams_toString_nonempty. unfold URLSearchParams.
    destruct filters; [contradiction | discriminate]. }
  assert (Hrun : forall net w, exists k,
             issued w (snd (getChartData_mode engine false net key filters w))
             = repeat url (S k)).
  { intros net w.
    rewrite (getChartData_live_known net key path filters w Hget Hpath).
    fold queryParams.
    destruct (queryParams =? "")%string eqn:He;
      [apply String.eqb_eq in He; contradiction |].
    cbn [negb]. apply fetch_chart_issued. }
  split; [exact Hq |].
  destruct (Hrun net1 w1) as [k1 H1]. destruct (Hrun net2 w2) as [k2 H2].
  exists k1, k2. split; assumption.
Qed.

(** C6 (where the code departs from it).  The key ["constructor"] is absent
    from the endpoint table, yet [endpointMap["constructor"]] finds the
    function inherited from [Object.prototype], which is truthy: live mode
    goes on to [fetchData] and requests the base URL followed by the text of
    that function. *)
Theorem getChartData_live_inherited_key_fetches (net : Network) (w : World) :
  assoc "constructor" endpointMap = None
  /\ exists k,
       issued w (snd (getChartData_mode engine false net "constructor" [] w))
       = repeat (BASE_URL API_CONFIG ++ native_function_text engine "Object")%string
           (S k).
Proof.
  split; [reflexivity |].
  assert (Heq : getChartData_mode engine false net "constructor" [] w
                = fetch_chart engine net (native_function_text engine "Object") w).
  { unfold getChartData_mode, fetch_chart. cbn. rewrite append_empty_r. reflexivity. }
  rewrite Heq. apply fetch_chart_issued.
Qed.

(** ** [getChartData], mock mode *)

(** C8.  As shipped (mock mode), [getChartData] for ["ntp-bulanan"] waits
    500 ms and returns a [Success] envelope whose [data.labels] and
    [data.values] are arrays of length 12, whatever the Filter Set. *)
Theorem getChartData_mock_ntp_bulanan (net : Network) (filters : Filters) (w : World) :
  exists data labels values,
    getChartData engine net "ntp-bulanan" filters w
    = (Normal (Env (Success data)), w ++ [EvWait 500])
    /\ member_array data "labels" = Some labels
    /\ member_array data "values" = Some values
    /\ length labels = 12
    /\ length values = 12.
Proof.
  do 3 eexists. repeat split; reflexivity.
Qed.

(** X24.  A key that is neither in the mock table nor a member of
    [Object.prototype] gets, after the 500 ms wait, a failure whose message
    ends with the key. *)
Lemma getChartData_mock_unknown_key (net : Network) (key : string)
  (filters : Filters) (w : World) :
  assoc key mockData = None ->
  assoc key Object_prototype = None ->
  getChartData engine net key filters w =
  (Normal (Env (Failure
     {| err_message := ("Mock data not found for: " ++ key)%string;
        err_status := None;
        err_data := None |})), w ++ [EvWait 500])
  /\ contains ("Mock data not found for: " ++ key)%string key.
Proof.
  intros Hown Hproto. split; [| apply contains_suffix].
  unfold getChartData, getChartData_mode, USE_MOCK_DATA, bind, sleep, ret,
    getMockChartData, get.
  rewrite Hown, Hproto. reflexivity.
Qed.

(** C9 (where the code departs from it).  The key ["constructor"] is absent
    from the mock table, yet [mockData["constructor"]] finds the function
    inherited from [Object.prototype], which is truthy: after the 500 ms wait
    the call returns that function, not a failure envelope. *)
Theorem getChartData_mock_inherited_key (net : Network) (filters : Filters) (w : World) :
  assoc "constructor" mockData = None
  /\ getChartData engine net "constructor" filters w
     = (Normal (NotEnvelope (NativeFunction "Object")), w ++ [EvWait 500]).
Proof. split; reflexivity. Qed.

(** C10.  As shipped (mock mode), the result of [getChartData] and the log it
    leaves do not depend on the Filter Set, nor on the network. *)
Theorem getChartData_mock_ignores_filters (net1 net2 : Network) (key : string)
  (filters1 filters2 : Filters) (w : World) :
  getChartData engine net1 key filters1 w = getChartData engine net2 key filters2 w.
Proof.
  unfold getChartData, getChartData_mode, USE_MOCK_DATA, bind, sleep, ret.
  unfold getMockChartData.
  destruct (get mockData key); reflexivity.
Qed.

End Proofs.

(** * Further properties of [fetchData] *)

Section Retries.

Local Open Scope list_scope.

Variable engine : Engine.

Lemma requested_length (w : World) : length (requested w) = fetch_count w.
Proof.
  unfold fetch_count. induction w as [| e w IH]; [reflexivity |].
  destruct e; simpl; rewrite ?IH; reflexivity.
Qed.

Lemma timer_total_app (w1 w2 : World) :
  timer_total (w1 ++ w2) = (timer_total w1 + timer_total w2)%Z.
Proof.
  induction w1 as [| e w1 IH]; simpl; [reflexivity |].
  destruct e; rewrite IH; lia.
Qed.

(** What one run of the [try] block appends to the log: the request, and the
    abort when the timer fired. *)
Lemma try_block_appends (net : Network) (url : string) (options : RequestInit)
  (w : World) :
  snd (try_block engine net url options w)
    = w ++ [EvFetch url (defaultOptions options)]
  \/ snd (try_block engine net url options w)
    = w ++ [EvFetch url (defaultOptions options); EvAbort (TIMEOUT API_CONFIG)].
Proof.
  rewrite try_block_outcome. cbn [snd]. unfold attempt_log.
  destruct (net (fetch_count w) url (defaultOptions options)); auto.
Qed.

Lemma backoff_cons (retryCount k : nat) :
  backoff retryCount (S k)
  = (DELAY (RETRY API_CONFIG) * Z.of_nat (retryCount + 1))%Z
    :: backoff (retryCount + 1) k.
Proof.
  unfold backoff. cbn [seq map]. f_equal.
  rewrite <- seq_shift, map_map. apply map_ext. intros i.
  do 2 f_equal. lia.
Qed.

(** What a call of [fetchData] appends to the log, in full: [k + 1] requests
    for the one URL with the one [init], [k] waits of the linear back-off
    between them, [k] at most the retries left, and timers within the
    budget. *)
Lemma fetchData_appends (net : Network) (endpoint : string) (options : RequestInit)
  (retryCount : nat) (w : World) :
  exists delta k,
    snd (fetchData engine net endpoint options retryCount w) = w ++ delta
    /\ k <= MAX_ATTEMPTS (RETRY API_CONFIG) - retryCount
    /\ requested delta = repeat (BASE_URL API_CONFIG ++ endpoint)%string (S k)
    /\ waits delta = backoff retryCount k
    /\ requests_carry (defaultOptions options) delta
    /\ (0 <= timer_total delta
        <= Z.of_nat (S k) * TIMEOUT API_CONFIG
           + fold_right Z.add 0 (backoff retryCount k))%Z.
Proof.
  set (url := (BASE_URL API_CONFIG ++ endpoint)%string).
  assert (Hone : forall w0 c w1,
             try_block engine net url options w0 = (c, w1) ->
             exists tail,
               w1 = w0 ++ EvFetch url (defaultOptions options) :: tail
               /\ (tail = [] \/ tail = [EvAbort (TIMEOUT API_CONFIG)])).
  { intros w0 c w1 Htry.
    destruct (try_block_appends net url options w0) as [H | H];
      rewrite Htry in H; cbn [snd] in H; subst w1.
    - exists []. auto.
    - exists [EvAbort (TIMEOUT API_CONFIG)]. auto. }
  assert (Hlast : forall w0 c w1,
             try_block engine net url options w0 = (c, w1) ->
             exists delta,
               w1 = w0 ++ delta
               /\ requested delta = repeat url 1
               /\ waits delta = []
               /\ requests_carry (defaultOptions options) delta
               /\ (0 <= timer_total delta <= TIMEOUT API_CONFIG)%Z).
  { intros w0 c w1 Htry. destruct (Hone _ _ _ Htry) as (tail & -> & Htail).
    exists (EvFetch url (defaultOptions options) :: tail).
    destruct Htail as [-> | ->]; repeat split; try reflexivity;
      try (intros u i [Hin | Hin]; [inversion Hin; reflexivity |]);
      try (cbn [timer_total]; change (TIMEOUT API_CONFIG) with 30000%Z; lia).
    - contradiction.
    - destruct Hin as [Hin | []]; discriminate. }
  apply (fetchData_inv engine net endpoint options
           (fun rc w r => exists delta k,
                snd r = w ++ delta
                /\ k <= MAX_ATTEMPTS (RETRY API_CONFIG) - rc
                /\ requested delta = repeat url (S k)
                /\ waits delta = backoff rc k
                /\ requests_carry (defaultOptions options) delta
                /\ (0 <= timer_total delta
                    <= Z.of_nat (S k) * TIMEOUT API_CONFIG
                       + fold_right Z.add 0 (backoff rc k))%Z)).
  - intros rc w0 envelope w1 Htry.
    destruct (Hlast _ _ _ Htry) as (delta & -> & Hreq & Hwaits & Hcarry & Htime).
    exists delta, 0. cbn [snd].
    split; [reflexivity |]. split; [lia |]. split; [exact Hreq |].
    split; [exact Hwaits |]. split; [exact Hcarry |].
    change (fold_right Z.add 0 (backoff rc 0))%Z with 0%Z.
    change (Z.of_nat 1) with 1%Z. lia.
  - intros rc w0 error w1 Htry _.
    destruct (Hlast _ _ _ Htry) as (delta & -> & Hreq & Hwaits & Hcarry & Htime).
    exists delta, 0. cbn [snd].
    split; [reflexivity |]. split; [lia |]. split; [exact Hreq |].
    split; [exact Hwaits |]. split; [exact Hcarry |].
    change (fold_right Z.add 0 (backoff rc 0))%Z with 0%Z.
    change (Z.of_nat 1) with 1%Z. lia.
  - intros rc w0 error w1 result Htry Hretry
      (delta & k & Hsnd & Hk & Hreq & Hwaits & Hcarry & Htime).
    destruct (Hone _ _ _ Htry) as (tail & -> & Htail).
    assert (Hlt : rc < MAX_ATTEMPTS (RETRY API_CONFIG)).
    { unfold retryable in Hretry. apply andb_prop in Hretry.
      destruct Hretry as [Hlt _]. apply Nat.ltb_lt in Hlt. exact Hlt. }
    set (pause := EvWait (DELAY (RETRY API_CONFIG) * Z.of_nat (rc + 1))) in *.
    exists (EvFetch url (defaultOptions options) :: tail ++ pause :: delta), (S k).
    split; [| split; [| split; [| split; [| split]]]].
    + rewrite Hsnd. rewrite <- !app_assoc. reflexivity.
    + lia.
    + destruct Htail as [-> | ->]; cbn [requested app]; rewrite Hreq; reflexivity.
    + rewrite backoff_cons.
      destruct Htail as [-> | ->]; cbn [waits app]; rewrite Hwaits; reflexivity.
    + intros u i Hin. destruct Hin as [Hin | Hin]; [inversion Hin; reflexivity |].
      apply in_app_or in Hin. destruct Hin as [Hin | Hin].
      * destruct Htail as [-> | ->]; [contradiction |].
        destruct Hin as [Hin | []]; discriminate.
      * destruct Hin as [Hin | Hin]; [discriminate |]. apply (Hcarry u i Hin).
    + rewrite backoff_cons. cbn [fold_right].
      assert (Htail_time : (0 <= timer_total tail <= TIMEOUT API_CONFIG)%Z).
      { destruct Htail as [-> | ->]; cbn [timer_total];
          change (TIMEOUT API_CONFIG) with 30000%Z; lia. }
      assert (Hdelay : (0 <= DELAY (RETRY API_CONFIG) * Z.of_nat (rc + 1))%Z).
      { change (DELAY (RETRY API_CONFIG)) with 1000%Z. lia. }
      cbn [timer_total]. rewrite timer_total_app. unfold pause.
      cbn [timer_total]. rewrite Nat2Z.inj_succ.
      change (TIMEOUT API_CONFIG) with 30000%Z in *. lia.
  - intros rc w0 w1 Htry.
    destruct (Hlast _ _ _ Htry) as (delta & -> & Hreq & Hwaits & Hcarry & Htime).
    exists delta, 0. cbn [snd].
    split; [reflexivity |]. split; [lia |]. split; [exact Hreq |].
    split; [exact Hwaits |]. split; [exact Hcarry |].
    change (fold_right Z.add 0 (backoff rc 0))%Z with 0%Z.
    change (Z.of_nat 1) with 1%Z. lia.
Qed.

(** X1.  Whatever the network does, a call of [fetchData] only appends to the
    log; it makes [k + 1] requests, [k] at most the retries left
    ([MAX_ATTEMPTS - retryCount]), all for the same URL and with the same
    [init]; and it waits [k] times, [DELAY * (retryCount + 1)], ...,
    [DELAY * (retryCount + k)]. *)
Theorem fetchData_attempts_bounded (net : Network) (endpoint : string)
  (options : RequestInit) (retryCount : nat) (w : World) :
  exists delta k,
    snd (fetchData engine net endpoint options retryCount w) = w ++ delta
    /\ k <= MAX_ATTEMPTS (RETRY API_CONFIG) - retryCount
    /\ fetch_count delta = S k
    /\ requested delta = repeat (BASE_URL API_CONFIG ++ endpoint)%string (S k)
    /\ requests_carry (defaultOptions options) delta
    /\ waits delta = backoff retryCount k.
Proof.
  destruct (fetchData_appends net endpoint options retryCount w)
    as (delta & k & Hsnd & Hk & Hreq & Hwaits & Hcarry & _).
  exists delta, k. repeat split; try assumption.
  rewrite <- requested_length, Hreq. apply repeat_length.
Qed.

(** X2.  Called as the application calls it (retry count 0), [fetchData]
    spends at most 4 request timeouts and the waits 1000 + 2000 + 3000 on
    timers: 126000 ms. *)
Theorem fetchData_timer_budget (net : Network) (endpoint : string)
  (options : RequestInit) (w : World) :
  (timer_total w
   <= timer_total (snd (fetchData engine net endpoint options 0 w))
   <= timer_total w + 4 * TIMEOUT API_CONFIG + 6 * DELAY (RETRY API_CONFIG))%Z.
Proof.
  destruct (fetchData_appends net endpoint options 0 w)
    as (delta & k & Hsnd & Hk & _ & _ & _ & Htime).
  rewrite Hsnd, timer_total_app.
  change (MAX_ATTEMPTS (RETRY API_CONFIG) - 0) with 3 in Hk.
  assert (Hsum : (fold_right Z.add 0 (backoff 0 k) <= 6000)%Z).
  { destruct k as [| [| [| [| k]]]]; cbn; lia. }
  change (TIMEOUT API_CONFIG) with 30000%Z in *.
  change (DELAY (RETRY API_CONFIG)) with 1000%Z.
  nia.
Qed.

Lemma try_block_success_inv (net : Network) (url : string) (options : RequestInit)
  (w : World) (v : JSON) (w1 : World) :
  try_block engine net url options w = (Normal (Success v), w1) ->
  exists code,
    net (fetch_count w) url (defaultOptions options) = Responded code (BodyJson v)
    /\ (200 <= code <= 299)%Z.
Proof.
  rewrite try_block_outcome. unfold attempt_result.
  destruct (net (fetch_count w) url (defaultOptions options))
    as [m | m | code payload]; try discriminate.
  destruct (ok {| resp_status := code; resp_body := payload |}) eqn:Hok.
  - destruct payload as [v' | n m |]; intros H; inversion H; subst.
    exists code. split; [reflexivity |].
    unfold ok in Hok. cbn [resp_status] in Hok.
    apply andb_prop in Hok. destruct Hok as [H1 H2].
    apply Z.leb_le in H1. apply Z.leb_le in H2. lia.
  - destruct payload as [v' | n m |]; try discriminate;
      destruct (http_error_message engine code _); discriminate.
Qed.

(** A conversion to string that throws, throws an error of the engine, which
    has no status. *)
Lemma ToString_throw_status (v : JSON) (e : JsError) :
  ToString engine v = Throw e -> status e = None.
Proof.
  revert e. induction v as [| b | x | s0 | items IHitems | fields]
    using JSON_array_ind; intros e; cbn [ToString]; try discriminate.
  - destruct b; discriminate.
  - induction IHitems as [| x rest Hx _ IHrest]; [discriminate |].
    destruct (match x with JNull => Normal ""%string | _ => ToString engine x end)
      as [first | err |] eqn:Hhead.
    + destruct rest as [| y rest']; [discriminate |].
      match goal with
      | |- context [match ?j with Normal _ => _ | Throw _ => _ | Pending => _ end] =>
          destruct j as [others | err |] eqn:Hrest
      end; try discriminate.
      intros H. inversion H; subst. apply IHrest. reflexivity.
    + intros H. inversion H; subst.
      destruct x; try discriminate; apply (Hx _ Hhead).
    + discriminate.
  - destruct (assoc "toString" fields); [| discriminate].
    intros H. inversion H. reflexivity.
Qed.

(** Evaluating the message of the [APIError] throws only errors of the
    engine, which have no status. *)
Lemma http_error_message_throw_status (code : Z) (errorData : JSON) (e : JsError) :
  http_error_message engine code errorData = Throw e -> status e = None.
Proof.
  unfold http_error_message, member.
  destruct errorData as [| b | x | s0 | items | fields]; try discriminate.
  - intros H. inversion H. reflexivity.
  - unfold message_or. destruct (get fields "message") as [v | b |]; try discriminate.
    destruct (truthy v); [apply ToString_throw_status | discriminate].
Qed.

Lemma not_ok_outside (code : Z) (payload : BodyOutcome) :
  ok {| resp_status := code; resp_body := payload |} = false ->
  ~ (200 <= code <= 299)%Z.
Proof.
  unfold ok. cbn [resp_status]. intros Hok.
  apply andb_false_iff in Hok.
  destruct Hok as [Hok | Hok]; apply Z.leb_gt in Hok; lia.
Qed.

(** The status that the error response reads off an error thrown by the
    [try] block is the one [reported_status] gives for the request's
    outcome. *)
Lemma try_block_throw_reported (net : Network) (url : string) (options : RequestInit)
  (w : World) (e : JsError) (w1 : World) :
  try_block engine net url options w = (Throw e, w1) ->
  err_status_of (error_response e)
  = Some (reported_status engine (net (fetch_count w) url (defaultOptions options))).
Proof.
  rewrite try_block_outcome. unfold attempt_result, reported_status.
  destruct (net (fetch_count w) url (defaultOptions options))
    as [m | m | code payload].
  - intros H. inversion H. reflexivity.
  - intros H. inversion H. reflexivity.
  - destruct (ok {| resp_status := code; resp_body := payload |}) eqn:Hok.
    + destruct payload as [v' | n m |]; intros H; inversion H. reflexivity.
    + destruct payload as [v' | n m |]; try discriminate;
        (destruct (http_error_message engine code _) as [msg | err |] eqn:Hm;
         intros H; inversion H; subst; clear H;
         [ cbn; destruct (code =? 0)%Z eqn:Hz;
           [apply Z.eqb_eq in Hz; subst; reflexivity | reflexivity]
         | unfold error_response, err_status_of; cbn [err_status];
           rewrite (http_error_message_throw_status _ _ _ Hm); reflexivity ]).
Qed.

(** An error thrown by the [try] block has no status, or the status of a
    response outside 200-299. *)
Lemma try_block_throw_status (net : Network) (url : string) (options : RequestInit)
  (w : World) (e : JsError) (w1 : World) :
  try_block engine net url options w = (Throw e, w1) ->
  status e = None
  \/ exists code, status e = Some code /\ ~ (200 <= code <= 299)%Z.
Proof.
  rewrite try_block_outcome. unfold attempt_result.
  destruct (net (fetch_count w) url (defaultOptions options))
    as [m | m | code payload].
  - intros H. inversion H. left. reflexivity.
  - intros H. inversion H. left. reflexivity.
  - destruct (ok {| resp_status := code; resp_body := payload |}) eqn:Hok.
    + destruct payload as [v' | n m |]; intros H; inversion H.
      left. reflexivity.
    + destruct payload as [v' | n m |]; try discriminate;
        (destruct (http_error_message engine code _) as [msg | err |] eqn:Hm;
         intros H; inversion H; subst; clear H;
         [ right; exists code; split;
           [reflexivity | apply (not_ok_outside _ _ Hok)]
         | left; apply (http_error_message_throw_status _ _ _ Hm) ]).
Qed.

Lemma try_block_fetch_count (net : Network) (url : string) (options : RequestInit)
  (w : World) :
  fetch_count (snd (try_block engine net url options w)) = S (fetch_count w).
Proof.
  destruct (try_block_appends net url options w) as [H | H];
    rewrite H, fetch_count_app; cbn; lia.
Qed.

(** The requests of a call are numbered from [fetch_count w]; there are at
    most [MAX_ATTEMPTS - retryCount + 1] of them. *)
Lemma fetchData_fetch_count (net : Network) (endpoint : string)
  (options : RequestInit) (retryCount : nat) (w : World) :
  exists k,
    k <= MAX_ATTEMPTS (RETRY API_CONFIG) - retryCount
    /\ fetch_count (snd (fetchData engine net endpoint options retryCount w))
       = S (fetch_count w + k).
Proof.
  destruct (fetchData_appends net endpoint options retryCount w)
    as (delta & k & Hsnd & Hk & Hreq & _).
  exists k. split; [exact Hk |].
  rewrite Hsnd, fetch_count_app, <- (requested_length delta), Hreq, repeat_length.
  lia.
Qed.

(** X3.  [fetchData] never reports success for anything but a response with
    a status in 200-299 whose body parsed: a [Success] envelope carries the
    body of such a response to the last request of the call, which is one of
    the at most [MAX_ATTEMPTS - retryCount + 1] requests the call makes. *)
Theorem fetchData_success_from_2xx (net : Network) (endpoint : string)
  (options : RequestInit) (retryCount : nat) (w : World) (v : JSON) :
  fst (fetchData engine net endpoint options retryCount w) = Normal (Success v) ->
  exists n code,
    fetch_count w <= n <= fetch_count w + (MAX_ATTEMPTS (RETRY API_CONFIG) - retryCount)
    /\ fetch_count (snd (fetchData engine net endpoint options retryCount w)) = S n
    /\ net n (BASE_URL API_CONFIG ++ endpoint)%string (defaultOptions options)
       = Responded code (BodyJson v)
    /\ (200 <= code <= 299)%Z.
Proof.
  intros Hfst.
  destruct (fetchData_fetch_count net endpoint options retryCount w)
    as (k & Hk & Hcount).
  assert (Hlast : exists code,
             net (Nat.pred (fetch_count
                    (snd (fetchData engine net endpoint options retryCount w))))
               (BASE_URL API_CONFIG ++ endpoint)%string (defaultOptions options)
             = Responded code (BodyJson v)
             /\ (200 <= code <= 299)%Z).
  { revert v Hfst. clear k Hk Hcount.
    apply (fetchData_inv engine net endpoint options
             (fun _ _ r => forall v, fst r = Normal (Success v) ->
                exists code,
                  net (Nat.pred (fetch_count (snd r)))
                    (BASE_URL API_CONFIG ++ endpoint)%string
                    (defaultOptions options)
                  = Responded code (BodyJson v)
                  /\ (200 <= code <= 299)%Z)).
    - intros _ w0 envelope w1 Htry v H. cbn [fst] in H. inversion H; subst.
      destruct (try_block_success_inv _ _ _ _ _ _ Htry) as (code & Hnet & Hcode).
      pose proof (try_block_fetch_count net
                    (BASE_URL API_CONFIG ++ endpoint)%string options w0) as Hc.
      rewrite Htry in Hc. cbn [snd] in Hc |- *. rewrite Hc. cbn [Nat.pred].
      exists code. auto.
    - intros _ w0 error w1 _ _ v H. discriminate.
    - intros rc w0 error w1 result Htry _ IH v H. apply (IH v H).
    - intros _ w0 w1 _ v H. discriminate. }
  destruct Hlast as (code & Hnet & Hcode).
  rewrite Hcount in Hnet |- *. cbn [Nat.pred] in Hnet.
  exists (fetch_count w + k), code.
  split; [lia |]. split; [reflexivity |]. split; assumption.
Qed.

(** X4.  A [Failure] envelope of [fetchData] always has a message that is not
    empty, data, and a status that is not in 200-299.  The status is the one
    of the outcome of the last request of the call: the status the server
    sent when that request was answered outside 200-299 and the [APIError]
    was built, and 0 in every other case (no response, a body in 200-299
    that did not parse, an error raised while building the [APIError]). *)
Theorem fetchData_failure_fields (net : Network) (endpoint : string)
  (options : RequestInit) (retryCount : nat) (w : World) (error : ErrorInfo) :
  fst (fetchData engine net endpoint options retryCount w) = Normal (Failure error) ->
  err_message error <> ""%string
  /\ (exists code, err_status error = Some code /\ ~ (200 <= code <= 299)%Z)
  /\ (exists d, err_data error = Some d)
  /\ (exists n,
         fetch_count w <= n
           <= fetch_count w + (MAX_ATTEMPTS (RETRY API_CONFIG) - retryCount)
         /\ fetch_count (snd (fetchData engine net endpoint options retryCount w))
            = S n
         /\ err_status error
            = Some (reported_status engine
                      (net n (BASE_URL API_CONFIG ++ endpoint)%string
                         (defaultOptions options)))).
Proof.
  intros Hfst.
  destruct (fetchData_fetch_count net endpoint options retryCount w)
    as (k & Hk & Hcount).
  assert (Hfields :
            err_message error <> ""%string
            /\ (exists code, err_status error = Some code
                             /\ ~ (200 <= code <= 299)%Z)
            /\ (exists d, err_data error = Some d)
            /\ err_status error
               = Some (reported_status engine
                         (net (Nat.pred (fetch_count
                                 (snd (fetchData engine net endpoint options
                                         retryCount w))))
                            (BASE_URL API_CONFIG ++ endpoint)%string
                            (defaultOptions options)))).
  { revert error Hfst. clear k Hk Hcount.
    apply (fetchData_inv engine net endpoint options
             (fun _ _ r => forall error, fst r = Normal (Failure error) ->
                err_message error <> ""%string
                /\ (exists code, err_status error = Some code
                                 /\ ~ (200 <= code <= 299)%Z)
                /\ (exists d, err_data error = Some d)
                /\ err_status error
                   = Some (reported_status engine
                             (net (Nat.pred (fetch_count (snd r)))
                                (BASE_URL API_CONFIG ++ endpoint)%string
                                (defaultOptions options))))).
    - intros _ w0 envelope w1 Htry error H. cbn [fst] in H. inversion H; subst.
      destruct (try_block_returns_success engine _ _ _ _ _ _ Htry) as [v Hv].
      discriminate.
    - intros _ w0 e w1 Htry _ error H. cbn [fst] in H.
      pose proof (try_block_throw_reported _ _ _ _ _ _ Htry) as Hreported.
      pose proof (try_block_fetch_count net
                    (BASE_URL API_CONFIG ++ endpoint)%string options w0) as Hc.
      rewrite Htry in Hc. cbn [snd] in Hc |- *. rewrite Hc. cbn [Nat.pred].
      unfold err_status_of in Hreported.
      unfold error_response in H, Hreported.
      inversion H; subst; clear H.
      cbn [err_message err_status err_data] in *.
      split; [| split; [| split]].
      + destruct (message e =? "")%string eqn:He; [discriminate |].
        apply String.eqb_neq. exact He.
      + destruct (try_block_throw_status _ _ _ _ _ _ Htry)
          as [Hnone | (code & Hsome & Hcode)].
        * rewrite Hnone. exists 0%Z. split; [reflexivity | lia].
        * rewrite Hsome. destruct (code =? 0)%Z.
          -- exists 0%Z. split; [reflexivity | lia].
          -- exists code. split; [reflexivity | assumption].
      + eexists. reflexivity.
      + exact Hreported.
    - intros _ _ _ _ result _ _ IH. exact IH.
    - intros _ w0 w1 _ error H. discriminate. }
  destruct Hfields as (Hmsg & Hstatus & Hdata & Hreported).
  rewrite Hcount in Hreported |- *. cbn [Nat.pred] in Hreported.
  split; [exact Hmsg |]. split; [exact Hstatus |]. split; [exact Hdata |].
  exists (fetch_count w + k). split; [lia |]. split; [reflexivity | exact Hreported].
Qed.

(** X5.  A response with a status in 200-299 whose body does not parse (the
    rejection is neither an [AbortError] nor a [TypeError]) is not retried:
    one request, and a failure with the parser's message, status 0 and data
    [null]. *)
Theorem fetchData_malformed_body_not_retried (net : Network) (endpoint : string)
  (options : RequestInit) (retryCount : nat) (w : World)
  (code : Z) (ename emessage : string) :
  let url := (BASE_URL API_CONFIG ++ endpoint)%string in
  let init := defaultOptions options in
  net (fetch_count w) url init = Responded code (BodyRejects ename emessage) ->
  (200 <= code <= 299)%Z ->
  ename <> "AbortError"%string ->
  ename <> "TypeError"%string ->
  fetchData engine net endpoint options retryCount w =
  (Normal (Failure
     {| err_message :=
          if (emessage =? "")%string then "An unexpected error occurred"%string
          else emessage;
        err_status := Some 0%Z;
        err_data := Some JNull |}),
   w ++ [EvFetch url init]).
Proof.
  intros url init Hnet Hcode Habort Htype.
  rewrite fetchData_step. fold url.
  assert (Htry : try_block engine net url options w
                 = (Throw (RuntimeError ename emessage), w ++ [EvFetch url init])).
  { unfold try_block, bind, fetch_with_timeout. fold init. rewrite Hnet.
    unfold ok. cbn [resp_status].
    replace (200 <=? code)%Z with true by (symmetry; apply Z.leb_le; lia).
    replace (code <=? 299)%Z with true by (symmetry; apply Z.leb_le; lia).
    reflexivity. }
  rewrite Htry.
  assert (Hno : retryable retryCount (RuntimeError ename emessage) = false).
  { unfold retryable, RuntimeError. cbn [name].
    apply String.eqb_neq in Habort. apply String.eqb_neq in Htype.
    rewrite Habort, Htype. apply andb_false_r. }
  rewrite Hno. reflexivity.
Qed.

(** ** The getters and [submitFeedback] *)

(** X6.  In live mode [getChartData] for each of the six indicator keys that
    have a getter of their own is that getter: the same requests, the same
    envelope. *)
Theorem getChartData_live_is_getter (net : Network) (filters : Filters) (w : World) :
  let wrap (m : M Envelope) := (envelope <- m ;; ret (Env envelope))%js w in
  getChartData_mode engine false net "ntp-bulanan" filters w
    = wrap (getNTPBulanan engine net filters)
  /\ getChartData_mode engine false net "ntp-indeks" filters w
     = wrap (getIndeksDiterimaDibayar engine net filters)
  /\ getChartData_mode engine false net "ntp-subsektor" filters w
     = wrap (getNTPPerSubsektor engine net filters)
  /\ getChartData_mode engine false net "tpak" filters w
     = wrap (getTPAKTahunan engine net filters)
  /\ getChartData_mode engine false net "tpt" filters w
     = wrap (getTPTTahunan engine net filters)
  /\ getChartData_mode engine false net "komposisi-tenaga-kerja" filters w
     = wrap (getKomposisiTenagaKerja engine net filters).
Proof.
  intros wrap. unfold wrap.
  repeat split;
    match goal with
    | |- getChartData_mode _ _ _ ?key _ _ = _ =>
        rewrite (getChartData_live_known engine net key
                   _ filters w eq_refl ltac:(discriminate))
    end; reflexivity.
Qed.

(** X7.  Every request [submitFeedback] makes is a POST to the feedback
    endpoint with the JSON content type, its body the JSON text of the
    feedback; there are at most four of them. *)
Theorem submitFeedback_requests (net : Network) (feedbackData : JSON) (w : World) :
  exists delta k,
    snd (submitFeedback engine net feedbackData w) = w ++ delta
    /\ k <= 3
    /\ requested delta = repeat "http://localhost:3000/api/feedback"%string (S k)
    /\ requests_carry
         {| method := Some "POST"%string;
            headers := Some [("Content-Type", "application/json")%string];
            body := Some (JSON_stringify feedbackData) |} delta.
Proof.
  unfold submitFeedback.
  destruct (fetchData_appends net (FEEDBACK (ENDPOINTS API_CONFIG))
              (feedback_options feedbackData) 0 w)
    as (delta & k & Hsnd & Hk & Hreq & _ & Hcarry & _).
  exists delta, k. repeat split; assumption.
Qed.

(** X8.  A feedback submission that times out is sent again: against a
    network that never answers in time the same POST goes out four times,
    1000, 2000 and 3000 ms apart, before the failure is returned. *)
Theorem submitFeedback_resent_on_timeout (net : Network) (feedbackData : JSON)
  (emessage : string) (w : World) :
  (forall n url init, net n url init = TimedOut emessage) ->
  let post :=
    EvFetch "http://localhost:3000/api/feedback"
      {| method := Some "POST"%string;
         headers := Some [("Content-Type", "application/json")%string];
         body := Some (JSON_stringify feedbackData) |} in
  snd (submitFeedback engine net feedbackData w)
  = w ++ [post; EvAbort 30000; EvWait 1000; post; EvAbort 30000; EvWait 2000;
          post; EvAbort 30000; EvWait 3000; post; EvAbort 30000].
Proof.
  intros Hnet post. unfold submitFeedback.
  rewrite (fetchData_timeout_log engine net (FEEDBACK (ENDPOINTS API_CONFIG))
             (feedback_options feedbackData) emessage w Hnet).
  reflexivity.
Qed.

End Retries.

(** * Further properties of [getChartData] *)

Section Resolution.

Local Open Scope list_scope.

Variable engine : Engine.

Lemma fetch_chart_fetch_count (net : Network) (fullEndpoint : string) (w : World) :
  exists k,
    fetch_count (snd (fetch_chart engine net fullEndpoint w)) = fetch_count w + S k.
Proof.
  destruct (fetchData_appends engine net fullEndpoint no_options 0 w)
    as (delta & k & Hsnd & _ & Hreq & _).
  exists k. unfold fetch_chart, bind, ret.
  destruct (fetchData engine net fullEndpoint no_options 0 w) as [[envelope | e |] w1];
    cbn [snd] in *; subst w1;
    rewrite fetch_count_app, <- (requested_length delta), Hreq, repeat_length;
    reflexivity.
Qed.

Ltac each_key key :=
  repeat match goal with
         | |- context [(?k =? key)%string] => destruct (k =? key)%string
         | H : context [(?k =? key)%string] |- _ => destruct (k =? key)%string
         end.

Lemma endpointMap_values_nonempty (key path : string) :
  assoc key endpointMap = Some path -> path <> ""%string.
Proof.
  unfold endpointMap. cbn [assoc]. each_key key;
    intros H; inversion H; discriminate.
Qed.

(** X9.  In live mode [getChartData] leaves the network alone exactly for
    the keys that are neither in the endpoint table nor members of
    [Object.prototype]; for every other key it makes at least one request. *)
Theorem getChartData_live_local_iff (net : Network) (key : string)
  (filters : Filters) (w : World) :
  fetch_count (snd (getChartData_mode engine false net key filters w)) = fetch_count w
  <-> assoc key endpointMap = None /\ assoc key Object_prototype = None.
Proof.
  destruct (assoc key endpointMap) as [path |] eqn:Hown.
  - assert (Hget : get endpointMap key = Own path)
      by (unfold get; rewrite Hown; reflexivity).
    rewrite (getChartData_live_known engine net key path filters w Hget
               (endpointMap_values_nonempty key path Hown)).
    destruct (fetch_chart_fetch_count net
                (path ++ (if negb (URLSearchParams_toString (URLSearchParams filters) =? "")
                          then "?" ++ URLSearchParams_toString (URLSearchParams filters)
                          else ""))%string w) as [k Hk].
    rewrite Hk. split; [lia | intros [H _]; discriminate].
  - destruct (assoc key Object_prototype) as [b |] eqn:Hproto.
    + assert (Hrun : exists fullEndpoint,
                getChartData_mode engine false net key filters w
                = fetch_chart engine net fullEndpoint w).
      { eexists. unfold getChartData_mode, get. rewrite Hown, Hproto. reflexivity. }
      destruct Hrun as [fullEndpoint ->].
      destruct (fetch_chart_fetch_count net fullEndpoint w) as [k Hk].
      rewrite Hk. split; [lia | intros [_ H]; discriminate].
    + unfold getChartData_mode, get. rewrite Hown, Hproto. cbn.
      split; auto.
Qed.

(** X10.  The mock table and the endpoint table have the same keys: the mock
    provider answers a key with a [Success] envelope exactly when live mode
    resolves that key to an endpoint of its own. *)
Theorem mock_keys_are_live_keys (key : string) (filters : Filters) :
  (exists data, getMockChartData key filters = Env (Success data))
  <-> (exists path, get endpointMap key = Own path).
Proof.
  unfold getMockChartData, get, mockData, endpointMap. cbn [assoc].
  each_key key;
    try (split; intros _; eexists; reflexivity).
  destruct (assoc key Object_prototype);
    split; intros [x H]; discriminate.
Qed.

(** X11.  Every [Success] envelope of the mock provider is consistent for the
    chart that draws it: it has [labels], and either [values] of the same
    length, or a non-empty list of [datasets] whose [values] all have that
    length. *)
Theorem mock_series_consistent (key : string) (filters : Filters) (data : JSON) :
  getMockChartData key filters = Env (Success data) ->
  exists labels,
    member_array data "labels" = Some labels
    /\ ((exists values,
           member_array data "values" = Some values
           /\ length values = length labels)
        \/ (exists datasets,
              member_array data "datasets" = Some datasets
              /\ datasets <> []
              /\ Forall (fun d => exists values,
                             member_array d "values" = Some values
                             /\ length values = length labels) datasets)).
Proof.
  unfold getMockChartData, get, mockData. cbn [assoc].
  each_key key;
    try (intros H; inversion H; subst; clear H;
         eexists; split; [reflexivity |];
         first [ left; eexists; split; reflexivity
               | right; eexists; split; [reflexivity |];
                 split; [discriminate |];
                 repeat constructor; eexists; split; reflexivity ]).
  destruct (assoc key Object_prototype); discriminate.
Qed.

End Resolution.

(** * Properties of the query string *)

Section QueryString.

Local Open Scope list_scope.

Lemma urlencode_cons (c : ascii) (rest : string) :
  urlencode (String c rest) = (encode_byte c ++ urlencode rest)%string.
Proof. reflexivity. Qed.

Lemma count_char_app (c : ascii) (a b : string) :
  count_char c (a ++ b)%string = count_char c a + count_char c b.
Proof.
  induction a as [| d a IH]; simpl; [reflexivity |]. rewrite IH. lia.
Qed.

(** The separators of a URL never come out of the encoder, and decoding
    undoes it, byte by byte. *)
Lemma encode_byte_facts (a : ascii) :
  count_char "&" (encode_byte a) = 0
  /\ count_char "=" (encode_byte a) = 0
  /\ count_char "?" (encode_byte a) = 0
  /\ count_char "#" (encode_byte a) = 0
  /\ count_char " " (encode_byte a) = 0
  /\ forall rest, urldecode (encode_byte a ++ rest)%string = String a (urldecode rest).
Proof.
  destruct a as [[|] [|] [|] [|] [|] [|] [|] [|]];
    repeat split; intros; reflexivity.
Qed.

Lemma urlencode_clean (s : string) :
  count_char "&" (urlencode s) = 0
  /\ count_char "=" (urlencode s) = 0
  /\ count_char "?" (urlencode s) = 0
  /\ count_char "#" (urlencode s) = 0
  /\ count_char " " (urlencode s) = 0.
Proof.
  induction s as [| a s (H1 & H2 & H3 & H4 & H5)]; [repeat split |].
  rewrite urlencode_cons, !count_char_app.
  destruct (encode_byte_facts a) as (E1 & E2 & E3 & E4 & E5 & _).
  rewrite H1, H2, H3, H4, H5, E1, E2, E3, E4, E5. repeat split.
Qed.

Lemma append_assoc (a b c : string) :
  ((a ++ b) ++ c)%string = (a ++ b ++ c)%string.
Proof. induction a as [| d a IH]; simpl; [| rewrite IH]; reflexivity. Qed.

Lemma urldecode_urlencode (s : string) : urldecode (urlencode s) = s.
Proof.
  induction s as [| a s IH]; [reflexivity |].
  rewrite urlencode_cons.
  destruct (encode_byte_facts a) as (_ & _ & _ & _ & _ & Hdecode).
  rewrite Hdecode, IH. reflexivity.
Qed.

Lemma URLSearchParams_toString_cons (key value : string)
  (rest : list (string * string)) :
  URLSearchParams_toString ((key, value) :: rest)
  = match rest with
    | [] => pair_text key value
    | _ => (pair_text key value ++ "&" ++ URLSearchParams_toString rest)%string
    end.
Proof. reflexivity. Qed.

Lemma pair_text_counts (key value : string) :
  count_char "&" (pair_text key value) = 0
  /\ count_char "=" (pair_text key value) = 1
  /\ count_char "?" (pair_text key value) = 0
  /\ count_char "#" (pair_text key value) = 0
  /\ count_char " " (pair_text key value) = 0.
Proof.
  unfold pair_text. rewrite !count_char_app.
  destruct (urlencode_clean key) as (K1 & K2 & K3 & K4 & K5).
  destruct (urlencode_clean value) as (V1 & V2 & V3 & V4 & V5).
  rewrite K1, K2, K3, K4, K5, V1, V2, V3, V4, V5. repeat split.
Qed.

Lemma URLSearchParams_toString_counts (params : list (string * string)) :
  let q := URLSearchParams_toString params in
  count_char "=" q = length params
  /\ count_char "&" q = length params - 1
  /\ count_char "?" q = 0
  /\ count_char "#" q = 0
  /\ count_char " " q = 0.
Proof.
  induction params as [| [key value] rest IH]; [repeat split |].
  cbv zeta in *. rewrite URLSearchParams_toString_cons.
  destruct (pair_text_counts key value) as (P1 & P2 & P3 & P4 & P5).
  destruct rest as [| p rest'].
  - rewrite P1, P2, P3, P4, P5. repeat split.
  - destruct IH as (I1 & I2 & I3 & I4 & I5).
    rewrite !count_char_app, P1, P2, P3, P4, P5, I1, I2, I3, I4, I5.
    cbn [count_char length]. repeat split; cbn; lia.
Qed.

(** X12.  The query string [getChartData] and the getters build from a Filter
    Set has exactly one [=] per filter and one [&] between two filters, and no
    [?], [#] or space: whatever the filter names and values contain, they
    cannot add a parameter or end the query. *)
Theorem query_string_separators (filters : Filters) :
  let queryParams := URLSearchParams_toString (URLSearchParams filters) in
  count_char "=" queryParams = length filters
  /\ count_char "&" queryParams = length filters - 1
  /\ count_char "?" queryParams = 0
  /\ count_char "#" queryParams = 0
  /\ count_char " " queryParams = 0.
Proof.
  intros queryParams. subst queryParams.
  pose proof (URLSearchParams_toString_counts (URLSearchParams filters)) as H.
  cbv zeta in H.
  assert (Hlen : length (URLSearchParams filters) = length filters)
    by (unfold URLSearchParams; apply length_map).
  rewrite Hlen in H. exact H.
Qed.

Lemma split_on_clean (c : ascii) (a : string) :
  count_char c a = 0 ->
  split_on c a = [a]
  /\ forall b, split_on c (a ++ String c b)%string = a :: split_on c b.
Proof.
  induction a as [| d a IH]; intros Hcount.
  - split; [reflexivity |]. intros b. simpl. rewrite Ascii.eqb_refl. reflexivity.
  - simpl in Hcount. destruct (Ascii.eqb c d) eqn:Hcd; [discriminate |].
    destruct (IH Hcount) as [H1 H2]. split.
    + simpl. rewrite Hcd, H1. reflexivity.
    + intros b. simpl. rewrite Hcd, H2. reflexivity.
Qed.

Lemma split_first_clean (c : ascii) (a b : string) :
  count_char c a = 0 ->
  split_first c (a ++ String c b)%string = (a, b).
Proof.
  induction a as [| d a IH]; intros Hcount.
  - simpl. rewrite Ascii.eqb_refl. reflexivity.
  - simpl in Hcount. destruct (Ascii.eqb c d) eqn:Hcd; [discriminate |].
    simpl. rewrite Hcd, (IH Hcount). reflexivity.
Qed.

Lemma pair_text_nonempty (key value : string) :
  (pair_text key value =? "")%string = false.
Proof.
  apply String.eqb_neq. intros H. unfold pair_text in H.
  apply append_eq_empty in H. destruct H as [_ H]. discriminate.
Qed.

Lemma parse_pair (key value : string) :
  (let (k, v) := split_first "=" (pair_text key value) in (urldecode k, urldecode v))
  = (key, value).
Proof.
  unfold pair_text.
  change ("=" ++ urlencode value)%string with (String "=" (urlencode value)).
  destruct (urlencode_clean key) as (_ & K2 & _).
  rewrite (split_first_clean "=" _ _ K2), !urldecode_urlencode. reflexivity.
Qed.

(** Reading back what the serializer wrote gives the parameters. *)
Lemma parse_query_toString (params : list (string * string)) :
  parse_query (URLSearchParams_toString params) = params.
Proof.
  induction params as [| [key value] rest IH]; [reflexivity |].
  rewrite URLSearchParams_toString_cons.
  destruct (pair_text_counts key value) as (P1 & _).
  destruct (split_on_clean "&" _ P1) as [Hone Hmore].
  destruct rest as [| p rest'].
  - unfold parse_query. rewrite Hone. cbn [filter].
    rewrite pair_text_nonempty. cbn [negb map]. rewrite parse_pair. reflexivity.
  - unfold parse_query in *.
    change ("&" ++ URLSearchParams_toString (p :: rest'))%string
      with (String "&" (URLSearchParams_toString (p :: rest'))).
    rewrite Hmore. cbn [filter]. rewrite pair_text_nonempty. cbn [negb map].
    rewrite parse_pair, IH. reflexivity.
Qed.

(** X13.  The serializer is injective on what [URLSearchParams] holds, the
    list of name and value strings: two such lists with the same query
    string are the same list, names, values and order.  (The conversion of
    filter values to those strings is not injective: an array is joined by
    commas.) *)
Theorem URLSearchParams_toString_injective (params1 params2 : list (string * string)) :
  URLSearchParams_toString params1 = URLSearchParams_toString params2 ->
  params1 = params2.
Proof.
  intros H.
  rewrite <- (parse_query_toString params1), <- (parse_query_toString params2), H.
  reflexivity.
Qed.

End QueryString.

(** * Properties of [getSelectedFilters] *)

Section SelectedFilters.

Local Open Scope list_scope.

Lemma selected_years_In (page : Page) (v : string) :
  In v (selected_years page)
  <-> exists c, In c page /\ checked c = true /\ checkbox_value c = v
                /\ four_digits v = true /\ includes v "20" = true.
Proof.
  unfold selected_years. rewrite in_map_iff. split.
  - intros (c & Hv & Hin). apply filter_In in Hin. destruct Hin as [Hin Hfour].
    apply filter_In in Hin. destruct Hin as [Hin Hcand].
    unfold year_candidate in Hcand. apply andb_prop in Hcand.
    destruct Hcand as [Hchecked Hattr].
    exists c. subst v. repeat split; try assumption.
    unfold checkbox_value. destruct (value_attribute c); [assumption | discriminate].
  - intros (c & Hin & Hchecked & Hv & Hfour & Hinc). exists c. split; [assumption |].
    subst v. apply filter_In. split; [| assumption].
    apply filter_In. split; [assumption |].
    unfold year_candidate. rewrite Hchecked. cbn [andb].
    unfold checkbox_value in *. destruct (value_attribute c); [assumption |].
    discriminate.
Qed.

Lemma selected_regions_In (page : Page) (v : string) :
  In v (selected_regions page)
  <-> exists c, In c page /\ checked c = true /\ checkbox_value c = v
                /\ four_digits v = false.
Proof.
  unfold selected_regions. rewrite in_map_iff. split.
  - intros (c & Hv & Hin). apply filter_In in Hin. destruct Hin as [Hin Hfour].
    apply filter_In in Hin. destruct Hin as [Hin Hchecked].
    exists c. subst v. repeat split; try assumption.
    apply negb_true_iff. assumption.
  - intros (c & Hin & Hchecked & Hv & Hfour). exists c. split; [assumption |].
    subst v. apply filter_In. split.
    + apply filter_In. split; assumption.
    + apply negb_true_iff. assumption.
Qed.

(** X14.  [getSelectedFilters] returns the two filters [years] and
    [regions], in that order.  [years] holds the values of the checked boxes
    that are four digits and contain [20]; [regions] holds the values of the
    checked boxes that are not four digits; nothing comes from a box that is
    not checked. *)
Theorem getSelectedFilters_membership (page : Page) :
  exists years regions,
    getSelectedFilters page = [("years"%string, FArray years);
                               ("regions"%string, FArray regions)]
    /\ (forall v, In v years
                  <-> exists c, In c page /\ checked c = true
                                /\ checkbox_value c = v
                                /\ four_digits v = true
                                /\ includes v "20" = true)
    /\ (forall v, In v regions
                  <-> exists c, In c page /\ checked c = true
                                /\ checkbox_value c = v
                                /\ four_digits v = false).
Proof.
  exists (selected_years page), (selected_regions page).
  split; [reflexivity |]. split; intros v.
  - apply selected_years_In.
  - apply selected_regions_In.
Qed.

(** X15.  A checked box whose value is four digits without [20] in them
    (a year such as 1999) is dropped: its value is in neither filter. *)
Theorem getSelectedFilters_drops_other_years (page : Page) (c : Checkbox) :
  In c page ->
  checked c = true ->
  four_digits (checkbox_value c) = true ->
  includes (checkbox_value c) "20" = false ->
  ~ In (checkbox_value c) (selected_years page)
  /\ ~ In (checkbox_value c) (selected_regions page).
Proof.
  intros _ _ Hfour Hinc. split; intros H.
  - apply selected_years_In in H. destruct H as (c' & _ & _ & _ & _ & H).
    rewrite Hinc in H. discriminate.
  - apply selected_regions_In in H. destruct H as (c' & _ & _ & _ & H).
    rewrite Hfour in H. discriminate.
Qed.

End SelectedFilters.

Section SelectedFiltersRequest.

Variable engine : Engine.

(** X16.  With the Filter Set of [getSelectedFilters], live [getChartData]
    for a documented key never requests the bare path: the endpoint always
    carries [?years=...&regions=...], also when no box is checked. *)
Theorem getChartData_selected_filters (page : Page) (key path : string)
  (net : Network) (w : World) :
  In (key, path) documented_endpoints ->
  getChartData_mode engine false net key (getSelectedFilters page) w
  = fetch_chart engine net
      (path ++ "?years=" ++ urlencode (String.concat "," (selected_years page))
            ++ "&regions=" ++ urlencode (String.concat "," (selected_regions page)))
      w.
Proof.
  intros Hin. destruct (endpointMap_documented key path Hin) as [Hget Hpath].
  rewrite (getChartData_live_known engine net key path
             (getSelectedFilters page) w Hget Hpath).
  reflexivity.
Qed.

End SelectedFiltersRequest.

(** * Properties of the tooltip *)

Section Tooltip.

Local Open Scope list_scope.

(** X17.  Wherever the pointer is and whatever the size of the window,
    [showTooltip] never places the tooltip off the left or the top edge: the
    numbers it writes as [left] and [top], each printed as JavaScript prints
    a number and followed by [px], are never less than 0. *)
Theorem showTooltip_never_negative (event : Pointer) (window : Window)
  (label formatted : string) (element : TooltipElement) :
  exists left top updated,
    showTooltip event window label formatted (Some element) = Some updated
    /\ style_left updated = (Number_toString left ++ "px")%string
    /\ style_top updated = (Number_toString top ++ "px")%string
    /\ (left <? 0)%float = false /\ (top <? 0)%float = false.
Proof.
  exists (fst (tooltip_position event window)),
         (snd (tooltip_position event window)).
  eexists. split; [reflexivity |]. cbn [style_left style_top].
  split; [reflexivity |]. split; [reflexivity |].
  unfold tooltip_position. cbv zeta. cbn [fst snd].
  split;
    match goal with
    | |- ((if (?l <? 0)%float then _ else _) <? 0)%float = false =>
        destruct (l <? 0)%float eqn:Hl; [reflexivity | exact Hl]
    end.
Qed.

Lemma classList_add_In (token other : string) (l : list string) :
  In other (classList_add token l) <-> other = token \/ In other l.
Proof.
  unfold classList_add. destruct (existsb (String.eqb token) l) eqn:He.
  - apply existsb_exists in He. destruct He as (x & Hx & Heq).
    apply String.eqb_eq in Heq. subst x.
    split; [auto | intros [-> | H]; assumption].
  - rewrite in_app_iff. cbn [In]. split.
    + intros [H | [H | []]]; auto.
    + intros [H | H]; auto.
Qed.

(** X19.  [showTooltip] puts the class [show] on the tooltip and
    [hideTooltip] takes it off; neither touches any other class, and showing
    a tooltip that is shown does not add the class a second time. *)
Theorem tooltip_show_hide (event : Pointer) (window : Window)
  (label formatted : string) (element : TooltipElement) :
  exists shown hidden,
    showTooltip event window label formatted (Some element) = Some shown
    /\ hideTooltip (Some shown) = Some hidden
    /\ In "show"%string (classList shown)
    /\ ~ In "show"%string (classList hidden)
    /\ (forall token, token <> "show"%string ->
          (In token (classList shown) <-> In token (classList element))
          /\ (In token (classList hidden) <-> In token (classList element)))
    /\ showTooltip event window label formatted (Some shown) = Some shown.
Proof.
  do 2 eexists. split; [reflexivity |]. split; [reflexivity |].
  cbn [classList]. split; [| split; [| split]].
  - apply classList_add_In. left. reflexivity.
  - intros H. apply filter_In in H. destruct H as [_ H].
    rewrite String.eqb_refl in H. discriminate.
  - intros token Hneq. split.
    + rewrite classList_add_In. split; [intros [H | H] | intros H]; auto.
      contradiction.
    + rewrite filter_In, classList_add_In. split.
      * intros [[H | H] _]; [contradiction | assumption].
      * intros H. split; [auto |]. apply negb_true_iff.
        apply String.eqb_neq. assumption.
  - unfold showTooltip. cbn [classList]. do 2 f_equal.
    unfold classList_add at 1.
    assert (Hin : In "show"%string (classList_add "show" (classList element)))
      by (apply classList_add_In; left; reflexivity).
    destruct (existsb (String.eqb "show") (classList_add "show" (classList element)))
      eqn:He; [reflexivity |].
    exfalso. assert (Hex : existsb (String.eqb "show")
                             (classList_add "show" (classList element)) = true).
    { apply existsb_exists. exists "show"%string. split; [assumption |].
      apply String.eqb_refl. }
    rewrite He in Hex. discriminate.
Qed.

End Tooltip.

(** * Properties of [debounce] *)

Section Debounce.

Local Open Scope list_scope.

Variable A : Type.

Lemma debounce_run_app (events1 events2 : list (DebounceEvent A)) (d : Debounced A) :
  debounce_run (events1 ++ events2) d = debounce_run events2 (debounce_run events1 d).
Proof. unfold debounce_run. apply fold_left_app. Qed.

Lemma executedFunction_timers (args : A) (d : Debounced A) :
  one_timer d ->
  timers (executedFunction args d) = [(next_id d, args)].
Proof.
  intros [Hnone | (id & old & Hone & Htimeout)]; unfold executedFunction;
    cbn [timers].
  - rewrite Hnone. destruct (timeout d); reflexivity.
  - rewrite Hone, Htimeout. cbn [clearTimeout filter fst].
    rewrite Nat.eqb_refl. reflexivity.
Qed.

Lemma one_timer_step (d : Debounced A) (e : DebounceEvent A) :
  one_timer d -> one_timer (debounce_step d e).
Proof.
  intros Hd. destruct e as [args | id]; cbn [debounce_step].
  - right. exists (next_id d), args.
    split; [apply executedFunction_timers; assumption | reflexivity].
  - unfold later. destruct Hd as [Hnone | (id' & old & Hone & Htimeout)].
    + rewrite Hnone. cbn [find]. left. assumption.
    + rewrite Hone. cbn [find fst].
      destruct (id' =? id)%nat eqn:Heq.
      * left. cbn [timers clearTimeout filter fst]. rewrite Heq. cbn [negb].
        destruct (timeout d); reflexivity.
      * right. exists id', old. auto.
Qed.

Lemma one_timer_run (events : list (DebounceEvent A)) (d : Debounced A) :
  one_timer d -> one_timer (debounce_run events d).
Proof.
  revert d. induction events as [| e events IH]; intros d Hd; [assumption |].
  apply IH. apply one_timer_step. assumption.
Qed.

Lemma one_timer_initial : one_timer (debounce A).
Proof. left. reflexivity. Qed.

Lemma invokes_only (l : list A) (d : Debounced A) :
  func_calls (debounce_run (map Invoke l) d) = func_calls d
  /\ next_id (debounce_run (map Invoke l) d) = next_id d + length l.
Proof.
  revert d. induction l as [| a l IH]; intros d; cbn [map length].
  - change (debounce_run [] d) with d. split; [reflexivity | lia].
  - change (debounce_run (Invoke a :: map Invoke l) d)
      with (debounce_run (map Invoke l) (executedFunction a d)).
    destruct (IH (executedFunction a d)) as [Hcalls Hnext].
    rewrite Hcalls, Hnext. cbn [executedFunction func_calls next_id].
    split; [reflexivity | lia].
Qed.

(** X20.  In any run of a debounced function, a burst of calls does not call
    [func]; after it exactly one timer is set, that of the last call; and
    when that timer comes due [func] is called once, with the arguments of
    the last call, and no timer is left. *)
Theorem debounce_burst (events : list (DebounceEvent A)) (l : list A) (last : A) :
  let d := debounce_run events (debounce A) in
  let burst := map Invoke (l ++ [last]) in
  func_calls (debounce_run burst d) = func_calls d
  /\ exists id,
       timers (debounce_run burst d) = [(id, last)]
       /\ func_calls (debounce_run (burst ++ [Fire id]) d) = func_calls d ++ [last]
       /\ timers (debounce_run (burst ++ [Fire id]) d) = [].
Proof.
  intros d burst.
  assert (Hd : one_timer d)
    by (apply one_timer_run, one_timer_initial).
  subst burst. rewrite map_app. cbn [map].
  rewrite debounce_run_app.
  set (before := debounce_run (map Invoke l) d).
  assert (Hbefore : one_timer before) by (apply one_timer_run; assumption).
  destruct (invokes_only l d) as [Hcalls _]. fold before in Hcalls.
  change (debounce_run [Invoke last] before) with (executedFunction last before).
  split; [exact Hcalls |].
  exists (next_id before).
  pose proof (executedFunction_timers last before Hbefore) as Htimers.
  split; [exact Htimers |].
  rewrite debounce_run_app, debounce_run_app.
  fold before.
  change (debounce_run [Invoke last] before) with (executedFunction last before).
  change (debounce_run [Fire (next_id before)] (executedFunction last before))
    with (later (next_id before) (executedFunction last before)).
  unfold later. rewrite Htimers. cbn [find fst]. rewrite Nat.eqb_refl.
  cbn [func_calls timers executedFunction timeout clearTimeout filter fst].
  rewrite Nat.eqb_refl. cbn [negb]. rewrite Hcalls. split; reflexivity.
Qed.

Lemma debounce_accounting (events : list (DebounceEvent A)) :
  let d := debounce_run events (debounce A) in
  length (func_calls d) + length (timers d) <= invocations events
  /\ (forall a, In a (func_calls d) \/ In a (map snd (timers d)) ->
                In (Invoke a) events).
Proof.
  induction events as [| e events IH] using rev_ind.
  - cbn. split; [lia |]. intros a [[] | []].
  - cbv zeta in *. rewrite debounce_run_app.
    set (d := debounce_run events (debounce A)) in *.
    assert (Hd : one_timer d) by (apply one_timer_run, one_timer_initial).
    destruct IH as [Hcount Hargs].
    change (debounce_run [e] d) with (debounce_step d e).
    unfold invocations in *. rewrite filter_app, length_app.
    destruct e as [args | id]; cbn [debounce_step filter length].
    + rewrite (executedFunction_timers args d Hd).
      cbn [executedFunction func_calls length map snd In]. split.
      * destruct Hd as [Hnone | (i & old & Hone & _)];
          [rewrite Hnone in Hcount | rewrite Hone in Hcount];
          cbn [length] in Hcount; lia.
      * intros a [Hin | [<- | []]].
        -- apply in_or_app. left. apply Hargs. left. assumption.
        -- apply in_or_app. right. left. reflexivity.
    + assert (Hlater :
        later id d = d
        \/ exists old, timers d = [(id, old)]
                       /\ timers (later id d) = []
                       /\ func_calls (later id d) = func_calls d ++ [old]).
      { unfold later. destruct Hd as [Hnone | (i & old & Hone & Htimeout)].
        - left. rewrite Hnone. reflexivity.
        - rewrite Hone. cbn [find fst]. destruct (i =? id)%nat eqn:Heq.
          + apply Nat.eqb_eq in Heq. subst i. right. exists old.
            split; [reflexivity |].
            cbn [timers func_calls clearTimeout filter fst].
            rewrite Nat.eqb_refl. cbn [negb].
            split; [destruct (timeout d); reflexivity | reflexivity].
          + left. reflexivity. }
      destruct Hlater as [-> | (old & Hone & Htimers & Hcalls)].
      * split; [lia |]. intros a H. apply in_or_app. left. apply Hargs. exact H.
      * rewrite Htimers, Hcalls, length_app. rewrite Hone in Hcount, Hargs.
        cbn [length map snd In] in *. split; [lia |].
        intros a [Hin | []]. apply in_or_app. left. apply Hargs.
        apply in_app_or in Hin. destruct Hin as [Hin | [<- | []]]; auto.
Qed.

(** X21.  In any run of a debounced function at most one timer is set,
    [func] has been called at most as often as the debounced function was
    called and not yet answered, and only with arguments the debounced
    function was called with. *)
Theorem debounce_never_more_than_called (events : list (DebounceEvent A)) :
  let d := debounce_run events (debounce A) in
  length (timers d) <= 1
  /\ length (func_calls d) + length (timers d) <= invocations events
  /\ (forall a, In a (func_calls d) -> In (Invoke a) events).
Proof.
  intros d. subst d.
  destruct (debounce_accounting events) as [Hcount Hargs]. cbv zeta in *.
  split; [| split].
  - destruct (one_timer_run events (debounce A) one_timer_initial)
      as [Hnone | (i & a & Hone & _)];
      [rewrite Hnone | rewrite Hone]; cbn; lia.
  - exact Hcount.
  - intros a H. apply Hargs. left. exact H.
Qed.

End Debounce.

(** * Concrete runs *)

Local Open Scope list_scope.

(** The model of the language agrees with the engines on known values. *)
Example Number_toString_known :
  map Number_toString
    [105.2; 0.1; 1e21; 123456789012345680000; 5e-324; 1.7976931348623157e308;
     0.000001; 1e-7; 0.1 + 0.2; 9007199254740993; 1 / 3; 35; -1.5; 1e23]%float
  = ["105.2"; "0.1"; "1e+21"; "123456789012345680000"; "5e-324";
     "1.7976931348623157e+308"; "0.000001"; "1e-7"; "0.30000000000000004";
     "9007199254740992"; "0.3333333333333333"; "35"; "-1.5"; "1e+23"]%string.
Proof. vm_compute. reflexivity. Qed.

(** The Filter Set of [getSelectedFilters] (utils.js:199-220) with two years
    ticked and no region. *)
Example URLSearchParams_selected_filters :
  URLSearchParams_toString
    (URLSearchParams [("years", FArray ["2023"; "2024"]); ("regions", FArray [])])
  = "years=2023%2C2024&regions="%string.
Proof. vm_compute. reflexivity. Qed.

Example URLSearchParams_escapes :
  URLSearchParams_toString
    (URLSearchParams [("region", FString "Kota Kupang"); ("q", FString "a&b=c");
                      ("year", FString "2024")])
  = "region=Kota+Kupang&q=a%26b%3Dc&year=2024"%string.
Proof. vm_compute. reflexivity. Qed.

(** A 404 with a JSON error body is returned at once with its message. *)
Example fetchData_404 :
  fetchData v8
    (fun _ _ _ => Responded 404 (BodyJson (JObj [("message", JStr "Not found")])))
    "/kpi" no_options 0 []
  = (Normal (Failure {| err_message := "Not found";
                        err_status := Some 404%Z;
                        err_data := Some (JObj [("message", JStr "Not found")]) |}),
     [EvFetch "http://localhost:3000/api/kpi" (defaultOptions no_options)]).
Proof. vm_compute. reflexivity. Qed.

(** A 200 whose body does not parse is a failure with status 0, not retried. *)
Example fetchData_malformed_body :
  fetchData v8
    (fun _ _ _ => Responded 200 (BodyRejects "SyntaxError" "Unexpected end of JSON input"))
    "/kpi" no_options 0 []
  = (Normal (Failure {| err_message := "Unexpected end of JSON input";
                        err_status := Some 0%Z;
                        err_data := Some JNull |}),
     [EvFetch "http://localhost:3000/api/kpi" (defaultOptions no_options)]).
Proof. vm_compute. reflexivity. Qed.

(** A 500 whose [message] is an object with an own [toString] cannot be
    turned into an [APIError]: the conversion throws a [TypeError], which is
    retried. *)
Example fetchData_500_unprintable_message :
  fetch_count
    (snd (fetchData v8
            (fun _ _ _ =>
               Responded 500
                 (BodyJson (JObj [("message", JObj [("toString", JNull)])])))
            "/kpi" no_options 0 [])) = 4.
Proof. vm_compute. reflexivity. Qed.

(** In live mode an unknown key is refused locally. *)
Example getChartData_live_does_not_exist :
  getChartData_mode v8 false (always_times_out "") "does-not-exist" [] []
  = (Normal (Env (Failure
       {| err_message := "Unknown visualization type: does-not-exist";
          err_status := None;
          err_data := None |})), []).
Proof. vm_compute. reflexivity. Qed.

(** C1, as stated, fails: against a network that always times out the request
    is invoked four times, not [MAX_ATTEMPTS] = 3 times. *)
Lemma fetchData_timeout_four_invocations :
  fetch_count
    (snd (fetchData v8 (always_times_out "The operation was aborted.")
            "/kpi" no_options 0 [])) = 4
  /\ Nat.eqb
       (fetch_count
          (snd (fetchData v8 (always_times_out "The operation was aborted.")
                  "/kpi" no_options 0 [])))
       (MAX_ATTEMPTS (RETRY API_CONFIG)) = false.
Proof. split; vm_compute; reflexivity. Qed.

(** C7, as stated, fails: when the body of a response never settles the call
    stays pending after its one request, with no abort (the timer was
    cleared when the headers arrived, api.js:42) and no envelope. *)
Lemma fetchData_stalled_body_pending :
  fetchData v8 stalled_body "/kpi" no_options 0 []
  = (Pending,
     [EvFetch "http://localhost:3000/api/kpi" (defaultOptions no_options)]).
Proof. vm_compute. reflexivity. Qed.

Lemma fetchData_one_envelope_when_bodies_settle_witness :
  (forall n,
      stalls ((fails_once_then (JObj [])) n (BASE_URL API_CONFIG ++ "/kpi")%string
                (defaultOptions no_options)) = false)
  /\ exists envelope w',
       fetchData v8 (fails_once_then (JObj [])) "/kpi" no_options 0 []
       = (Normal envelope, w')
       /\ fetch_envelope envelope.
Proof.
  assert (H : forall n,
             stalls (fails_once_then (JObj []) n (BASE_URL API_CONFIG ++ "/kpi")%string
                       (defaultOptions no_options)) = false).
  { intros [| n]; reflexivity. }
  exact (conj H (fetchData_one_envelope_when_bodies_settle v8
                   (fails_once_then (JObj [])) "/kpi" no_options 0 [] H)).
Defined.

Lemma fetchData_timeout_retries_witness :
  (forall n url init,
      always_times_out "The operation was aborted." n url init
      = TimedOut "The operation was aborted.")
  /\ (let result :=
        fetchData v8 (always_times_out "The operation was aborted.")
          "/kpi" no_options 0 [] in
      fst result =
        Normal (Failure {| err_message := "The operation was aborted.";
                           err_status := Some 0%Z;
                           err_data := Some JNull |})
      /\ fetch_count (snd result) = 4
      /\ waits (snd result) = [1000; 2000; 3000]%Z).
Proof.
  split.
  - intros n url init. reflexivity.
  - exact (fetchData_timeout_retries v8
             (always_times_out "The operation was aborted.") "/kpi" no_options
             "The operation was aborted." []
             (fun _ _ _ => eq_refl)).
Defined.

Lemma fetchData_retry_then_success_witness :
  let net := fails_once_then (JObj [("title", JStr "IPM")]) in
  let url := "http://localhost:3000/api/ipm"%string in
  let init := defaultOptions no_options in
  transient (net 0 url init) = true
  /\ net 1 url init = Responded 200 (BodyJson (JObj [("title", JStr "IPM")]))
  /\ (200 <= 200 <= 299)%Z
  /\ (let result := fetchData v8 net "/ipm" no_options 0 [] in
      fst result = Normal (Success (JObj [("title", JStr "IPM")]))
      /\ fetch_count (snd result) = 2
      /\ waits (snd result) = [1000%Z]).
Proof.
  intros net url init.
  assert (Hfirst : transient (net 0 url init) = true) by reflexivity.
  assert (Hsecond : net 1 url init
                    = Responded 200 (BodyJson (JObj [("title", JStr "IPM")])))
    by reflexivity.
  assert (Hcode : (200 <= 200 <= 299)%Z) by lia.
  exact (conj Hfirst (conj Hsecond (conj Hcode
           (fetchData_retry_then_success v8 net "/ipm" no_options 200
              (JObj [("title", JStr "IPM")]) [] Hfirst Hsecond Hcode)))).
Defined.

Lemma getChartData_live_documented_path_witness :
  In ("tpak", "/ketenagakerjaan/tpak-tahunan")%string documented_endpoints
  /\ getChartData_mode v8 false (always_times_out "") "tpak" [] []
     = fetch_chart v8 (always_times_out "") "/ketenagakerjaan/tpak-tahunan" [].
Proof.
  assert (Hin : In ("tpak", "/ketenagakerjaan/tpak-tahunan")%string
                  documented_endpoints).
  { unfold documented_endpoints. simpl. tauto. }
  split; [exact Hin |].
  exact (proj1 (getChartData_live_documented_path v8 "tpak"
                  "/ketenagakerjaan/tpak-tahunan" (always_times_out "") [] Hin)).
Defined.

Lemma getChartData_query_deterministic_witness :
  let filters := [("years", FArray ["2023"; "2024"]%string); ("regions", FArray [])] in
  let url :=
    "http://localhost:3000/api/ipm?years=2023%2C2024&regions="%string in
  In ("ipm", "/ipm")%string documented_endpoints
  /\ filters <> []
  /\ exists k1 k2,
       issued []
         (snd (getChartData_mode v8 false (always_times_out "") "ipm" filters []))
       = repeat url (S k1)
       /\ issued [EvWait 500]
            (snd (getChartData_mode v8 false
                    (fails_once_then (JObj [])) "ipm" filters [EvWait 500]))
          = repeat url (S k2).
Proof.
  intros filters url.
  assert (Hin : In ("ipm", "/ipm")%string documented_endpoints).
  { unfold documented_endpoints. simpl. tauto. }
  assert (Hfilters : filters <> []) by discriminate.
  split; [exact Hin |]. split; [exact Hfilters |].
  exact (proj2 (getChartData_query_deterministic v8 "ipm" "/ipm" filters
                  (always_times_out "") (fails_once_then (JObj []))
                  [] [EvWait 500] Hin Hfilters)).
Defined.

(** ** Runs for the further properties *)

Example JSON_stringify_feedback :
  JSON_stringify
    (JObj [("name", JStr "Ana"); ("rating", JNum 4.5);
           ("tags", JArr [JStr "a\b"; JNull; JBool true])])
  = ("{" ++ dquote ++ "name" ++ dquote ++ ":" ++ dquote ++ "Ana" ++ dquote
     ++ "," ++ dquote ++ "rating" ++ dquote ++ ":4.5"
     ++ "," ++ dquote ++ "tags" ++ dquote ++ ":["
     ++ dquote ++ "a\\b" ++ dquote ++ ",null,true]}")%string.
Proof. vm_compute. reflexivity. Qed.

Example getSelectedFilters_page :
  getSelectedFilters
    [ {| value_attribute := Some "2023"; checked := true |};
      {| value_attribute := Some "2020"; checked := false |};
      {| value_attribute := Some "Kota Kupang"; checked := true |};
      {| value_attribute := None; checked := true |} ]%string
  = [("years", FArray ["2023"]); ("regions", FArray ["Kota Kupang"; "on"])]%string.
Proof. vm_compute. reflexivity. Qed.

(** Two filter selections that differ, with the same query string: the
    array of one string with a comma, and the array of its two halves. *)
Example filters_share_query_string :
  URLSearchParams_toString (URLSearchParams [("regions", FArray ["a,b"])])
  = "regions=a%2Cb"
  /\ URLSearchParams_toString (URLSearchParams [("regions", FArray ["a"; "b"])])
     = "regions=a%2Cb".
Proof. split; vm_compute; reflexivity. Qed.

(** [showTooltip] near the right and top edges of an 800 by 600 window, and
    far outside it, where the number is printed with an exponent. *)
Example showTooltip_near_edges :
  showTooltip {| pageX := 790; pageY := 5 |}
    {| innerWidth := 800; innerHeight := 600 |} "Jan" "105,20"
    (Some {| innerHTML := ""; style_left := ""; style_top := ""; classList := [] |})
  = Some {| innerHTML := "<strong>Jan</strong><br/>Nilai: 105,20";
            style_left := "580px"; style_top := "10px"; classList := ["show"] |}.
Proof. vm_compute. reflexivity. Qed.

Example showTooltip_far_right :
  showTooltip {| pageX := 1e21; pageY := 100.5 |}
    {| innerWidth := 800; innerHeight := 600 |} "Jan" "105,20"
    (Some {| innerHTML := ""; style_left := ""; style_top := ""; classList := [] |})
  = Some {| innerHTML := "<strong>Jan</strong><br/>Nilai: 105,20";
            style_left := "1e+21px"; style_top := "90.5px"; classList := ["show"] |}.
Proof. vm_compute. reflexivity. Qed.

Lemma fetchData_success_from_2xx_witness :
  let result := fetchData v8 (fails_once_then (JObj [])) "/kpi" no_options 0 [] in
  fst result = Normal (Success (JObj []))
  /\ exists n code,
       fetch_count [] <= n <= fetch_count [] + (MAX_ATTEMPTS (RETRY API_CONFIG) - 0)
       /\ fetch_count (snd result) = S n
       /\ fails_once_then (JObj []) n (BASE_URL API_CONFIG ++ "/kpi")%string
            (defaultOptions no_options)
          = Responded code (BodyJson (JObj []))
       /\ (200 <= code <= 299)%Z.
Proof.
  intros result.
  assert (H : fst result = Normal (Success (JObj []))) by reflexivity.
  exact (conj H (fetchData_success_from_2xx v8 (fails_once_then (JObj []))
                   "/kpi" no_options 0 [] (JObj []) H)).
Defined.

(** The status reported for a 404 with a JSON body is 404; for a request
    that got no response, 0. *)
Example reported_status_404 :
  reported_status v8
    (Responded 404 (BodyJson (JObj [("message", JStr "Not found")]%string)))
  = 404%Z
  /\ reported_status v8 (NetworkFailure "Failed to fetch") = 0%Z.
Proof. split; reflexivity. Qed.

Lemma fetchData_failure_fields_witness :
  let net : Network :=
    fun _ _ _ =>
      Responded 404 (BodyJson (JObj [("message", JStr "Not found")]%string)) in
  let error := {| err_message := "Not found"%string;
                  err_status := Some 404%Z;
                  err_data := Some (JObj [("message", JStr "Not found")]%string) |} in
  let result := fetchData v8 net "/kpi" no_options 0 [] in
  fst result = Normal (Failure error)
  /\ err_message error <> ""%string
  /\ (exists code, err_status error = Some code /\ ~ (200 <= code <= 299)%Z)
  /\ (exists d, err_data error = Some d)
  /\ (exists n,
         fetch_count [] <= n <= fetch_count [] + (MAX_ATTEMPTS (RETRY API_CONFIG) - 0)
         /\ fetch_count (snd result) = S n
         /\ err_status error
            = Some (reported_status v8
                      (net n (BASE_URL API_CONFIG ++ "/kpi")%string
                         (defaultOptions no_options)))).
Proof.
  intros net error result.
  assert (H : fst result = Normal (Failure error)) by reflexivity.
  exact (conj H (fetchData_failure_fields v8 net "/kpi" no_options 0 [] error H)).
Defined.

Lemma fetchData_malformed_body_not_retried_witness :
  let net : Network :=
    fun _ _ _ => Responded 200 (BodyRejects "SyntaxError" "Unexpected end of JSON input") in
  let url := "http://localhost:3000/api/kpi"%string in
  net 0 url (defaultOptions no_options)
  = Responded 200 (BodyRejects "SyntaxError" "Unexpected end of JSON input")
  /\ (200 <= 200 <= 299)%Z
  /\ "SyntaxError"%string <> "AbortError"%string
  /\ "SyntaxError"%string <> "TypeError"%string
  /\ fetchData v8 net "/kpi" no_options 0 []
     = (Normal (Failure {| err_message := "Unexpected end of JSON input";
                           err_status := Some 0%Z;
                           err_data := Some JNull |}),
        [EvFetch url (defaultOptions no_options)]).
Proof.
  intros net url.
  assert (H1 : net 0 url (defaultOptions no_options)
               = Responded 200 (BodyRejects "SyntaxError" "Unexpected end of JSON input"))
    by reflexivity.
  assert (H2 : (200 <= 200 <= 299)%Z) by lia.
  assert (H3 : "SyntaxError"%string <> "AbortError"%string) by discriminate.
  assert (H4 : "SyntaxError"%string <> "TypeError"%string) by discriminate.
  exact (conj H1 (conj H2 (conj H3 (conj H4
           (fetchData_malformed_body_not_retried v8 net "/kpi" no_options 0 []
              200 "SyntaxError" "Unexpected end of JSON input" H1 H2 H3 H4))))).
Defined.

Lemma submitFeedback_resent_on_timeout_witness :
  let feedback := JObj [("message", JStr "Terima kasih")] in
  let post :=
    EvFetch "http://localhost:3000/api/feedback"
      {| method := Some "POST"%string;
         headers := Some [("Content-Type", "application/json")%string];
         body := Some (JSON_stringify feedback) |} in
  (forall n url init, always_times_out "timeout" n url init = TimedOut "timeout")
  /\ snd (submitFeedback v8 (always_times_out "timeout") feedback [])
     = [post; EvAbort 30000; EvWait 1000; post; EvAbort 30000; EvWait 2000;
        post; EvAbort 30000; EvWait 3000; post; EvAbort 30000].
Proof.
  intros feedback post.
  exact (conj (fun _ _ _ => eq_refl)
           (submitFeedback_resent_on_timeout v8 (always_times_out "timeout")
              feedback "timeout" [] (fun _ _ _ => eq_refl))).
Defined.

Lemma mock_series_consistent_witness :
  exists data,
    getMockChartData "ntp-indeks" [] = Env (Success data)
    /\ exists labels,
         member_array data "labels" = Some labels
         /\ ((exists values,
                member_array data "values" = Some values
                /\ length values = length labels)
             \/ (exists datasets,
                   member_array data "datasets" = Some datasets
                   /\ datasets <> []
                   /\ Forall (fun d => exists values,
                                  member_array d "values" = Some values
                                  /\ length values = length labels) datasets)).
Proof.
  eexists. split; [reflexivity |].
  exact (mock_series_consistent "ntp-indeks" [] _ eq_refl).
Defined.

Lemma URLSearchParams_toString_injective_witness :
  URLSearchParams_toString [("years", "2023,2024"); ("regions", "")]%string
  = URLSearchParams_toString [("years", "2023,2024"); ("regions", "")]%string
  /\ [("years", "2023,2024"); ("regions", "")]%string
     = [("years", "2023,2024"); ("regions", "")]%string.
Proof.
  exact (conj eq_refl
           (URLSearchParams_toString_injective
              [("years", "2023,2024"); ("regions", "")]%string
              [("years", "2023,2024"); ("regions", "")]%string eq_refl)).
Defined.

Lemma getSelectedFilters_drops_other_years_witness :
  let box := {| value_attribute := Some "1999"%string; checked := true |} in
  let page := [box; {| value_attribute := Some "2024"%string; checked := true |}] in
  In box page
  /\ checked box = true
  /\ four_digits (checkbox_value box) = true
  /\ includes (checkbox_value box) "20" = false
  /\ ~ In (checkbox_value box) (selected_years page)
  /\ ~ In (checkbox_value box) (selected_regions page).
Proof.
  intros box page.
  assert (H1 : In box page) by (left; reflexivity).
  exact (conj H1 (conj eq_refl (conj eq_refl (conj eq_refl
           (getSelectedFilters_drops_other_years page box H1
              eq_refl eq_refl eq_refl))))).
Defined.

Lemma getChartData_selected_filters_witness :
  let page := [ {| value_attribute := Some "2024"%string; checked := true |} ] in
  In ("ipm", "/ipm")%string documented_endpoints
  /\ getChartData_mode v8 false (always_times_out "") "ipm" (getSelectedFilters page) []
     = fetch_chart v8 (always_times_out "") "/ipm?years=2024&regions=" [].
Proof.
  intros page.
  assert (Hin : In ("ipm", "/ipm")%string documented_endpoints).
  { unfold documented_endpoints. simpl. tauto. }
  exact (conj Hin (getChartData_selected_filters v8 page "ipm" "/ipm"
                     (always_times_out "") [] Hin)).
Defined.


Lemma getChartData_live_unknown_key_witness :
  assoc "does-not-exist" endpointMap = None
  /\ assoc "does-not-exist" Object_prototype = None
  /\ getChartData_mode v8 false (always_times_out "") "does-not-exist" [] []
     = (Normal (Env (Failure
          {| err_message := "Unknown visualization type: does-not-exist";
             err_status := None;
             err_data := None |})), [])
  /\ contains "Unknown visualization type: does-not-exist" "does-not-exist".
Proof.
  exact (conj eq_refl (conj eq_refl
           (getChartData_live_unknown_key v8 (always_times_out "")
              "does-not-exist" [] [] eq_refl eq_refl))).
Defined.

Lemma getChartData_mock_unknown_key_witness :
  assoc "does-not-exist" mockData = None
  /\ assoc "does-not-exist" Object_prototype = None
  /\ getChartData v8 (always_times_out "") "does-not-exist" [] []
     = (Normal (Env (Failure
          {| err_message := "Mock data not found for: does-not-exist";
             err_status := None;
             err_data := None |})), [EvWait 500])
  /\ contains "Mock data not found for: does-not-exist" "does-not-exist".
Proof.
  exact (conj eq_refl (conj eq_refl
           (getChartData_mock_unknown_key v8 (always_times_out "")
              "does-not-exist" [] [] eq_refl eq_refl))).
Defined.
